(** * Tool registry and execution engine of the MCP server (src/tools.py)

    A shallow embedding of [ToolMetadata], [BaseTool] and [ToolRegistry],
    and the properties of registration, input validation, cache-key
    derivation, caching, time-outs and error translation.

    Conventions of the embedding.
    - A Python [str] is a Rocq [string]; each character is read as a code
      point below 256.
    - A Python [dict] whose order can be observed ([**kwargs], [_tools],
      nested JSON objects) is an insertion-ordered association list
      ([PyDict]); [_cache], whose order is never observed, is a [gmap].
    - Durations (the [float] seconds of [timeout]) are rationals.
    - An exception is its class and its [str()]; the classes are those an
      [except Exception] clause handles.
    - The coroutine of a handler, left alone, finishes after a finite time.
      It may change its arguments in place, and a cancellation reaches it
      only where it is suspended at an [await].
    - [execute_tool] is modelled from its parameters on: [kwargs] is the
      dictionary Python has bound to [**kwargs].
    - One invocation runs from call to return; interleavings of concurrent
      invocations are outside the embedding. *)

From Stdlib Require Import QArith Structures.OrderedTypeEx Ascii.
From stdpp Require Import base strings list gmap sorting pretty.

Local Open Scope string_scope.

(** ** Insertion-ordered dictionaries *)

Module PyDict.

Definition dict (V : Type) : Type := list (string * V).

Definition keys {V} (d : dict V) : list string := List.map fst d.

(** [d.get(k)] *)
Fixpoint get {V} (k : string) (d : dict V) : option V :=
  match d with
  | [] => None
  | (k', v) :: d' => if String.eqb k k' then Some v else get k d'
  end.

(** [k in d] *)
Definition contains {V} (k : string) (d : dict V) : bool :=
  match get k d with Some _ => true | None => false end.

(** [d[k] = v]: an existing key keeps its position, a new key goes last. *)
Fixpoint set {V} (k : string) (v : V) (d : dict V) : dict V :=
  match d with
  | [] => [(k, v)]
  | (k', v') :: d' =>
      if String.eqb k k' then (k', v) :: d' else (k', v') :: set k v d'
  end.

(** [del d[k]] *)
Fixpoint del {V} (k : string) (d : dict V) : dict V :=
  match d with
  | [] => []
  | (k', v') :: d' =>
      if String.eqb k k' then d' else (k', v') :: del k d'
  end.

(** The keys of a dictionary are pairwise distinct. *)
Definition wf {V} (d : dict V) : Prop := NoDup (keys d).

(** Order of two items: Python compares tuples lexicographically, and two
    items of one dictionary differ in their keys, so the keys decide. *)
Definition item_le {V} (x y : string * V) : Prop :=
  String.leb (fst x) (fst y) = true.

Fixpoint insert_sorted {V} (x : string * V) (l : list (string * V))
  : list (string * V) :=
  match l with
  | [] => [x]
  | y :: l' =>
      if String.leb (fst x) (fst y) then x :: y :: l'
      else y :: insert_sorted x l'
  end.

(** [sorted(d.items())]: a stable sort on the keys. *)
Definition sorted_items {V} (d : dict V) : list (string * V) :=
  foldr insert_sorted [] d.

End PyDict.

Import PyDict.

(** ** Python values *)

#[warnings="-register-all"]
Inductive pyval : Type :=
| PNone
| PBool (b : bool)
| PInt (n : Z)
| PStr (s : string)
| PList (l : list pyval)
| PTuple (l : list pyval)
| PDict (d : list (string * pyval))
| PObject (type_name : string) (* a value json cannot encode: set, bytes, ... *).

(** Induction on values, through the lists and dictionaries they hold. *)
Section pyval_induction.
Variable P : pyval -> Prop.
Hypothesis HNone : P PNone.
Hypothesis HBool : forall b, P (PBool b).
Hypothesis HInt : forall n, P (PInt n).
Hypothesis HStr : forall s, P (PStr s).
Hypothesis HList : forall l, Forall P l -> P (PList l).
Hypothesis HTuple : forall l, Forall P l -> P (PTuple l).
Hypothesis HDict : forall d, Forall (fun kv => P (snd kv)) d -> P (PDict d).
Hypothesis HObject : forall type_name, P (PObject type_name).

Fixpoint pyval_nested_ind (v : pyval) : P v :=
  match v with
  | PNone => HNone
  | PBool b => HBool b
  | PInt n => HInt n
  | PStr s => HStr s
  | PList l =>
      HList l ((fix all (l : list pyval) : Forall P l :=
                  match l with
                  | [] => Forall_nil_2 P
                  | x :: l' => Forall_cons_2 P x l' (pyval_nested_ind x) (all l')
                  end) l)
  | PTuple l =>
      HTuple l ((fix all (l : list pyval) : Forall P l :=
                   match l with
                   | [] => Forall_nil_2 P
                   | x :: l' => Forall_cons_2 P x l' (pyval_nested_ind x) (all l')
                   end) l)
  | PDict d =>
      HDict d ((fix all (d : list (string * pyval))
                  : Forall (fun kv => P (snd kv)) d :=
                  match d with
                  | [] => Forall_nil_2 _
                  | kv :: d' =>
                      Forall_cons_2 (fun kv => P (snd kv)) kv d'
                        (pyval_nested_ind (snd kv)) (all d')
                  end) d)
  | PObject type_name => HObject type_name
  end.
End pyval_induction.

(** [**kwargs] *)
Abbreviation kwargs := (dict pyval).

(** ** Exceptions *)

Inductive exc_class : Type :=
| ToolError
| ToolTimeoutError
| ToolValidationError
| AsyncioTimeoutError
| TypeError
| OtherException (class_name : string).

Record exn : Type := Exn { exn_class : exc_class; exn_str : string }.

Inductive result (A : Type) : Type :=
| Return (a : A)
| Raise (e : exn).

Arguments Return {A} a.
Arguments Raise {A} e.

#[global] Instance exc_class_eq_dec : EqDecision exc_class.
Proof. solve_decision. Defined.

Definition bind_result {A B} (r : result A) (k : A -> result B) : result B :=
  match r with
  | Return a => k a
  | Raise e => Raise e
  end.

(** The first exception of a sequence of computations, in order. *)
Fixpoint sequence_results {A} (l : list (result A)) : result (list A) :=
  match l with
  | [] => Return []
  | r :: l' =>
      bind_result r (fun a =>
      bind_result (sequence_results l') (fun l'' => Return (a :: l'')))
  end.

(** The computation [x] raises nothing but exceptions in [Q]. *)
Definition raises_only {A} (Q : exn -> Prop) (x : result A) : Prop :=
  forall e, x = Raise e -> Q e.

(** ** json.dumps(obj, sort_keys=True) *)

Module Json.

Definition dquote : ascii := "034"%char.
Definition backslash : ascii := "092"%char.

Definition hex_digit (n : N) : ascii :=
  match n with
  | 0 => "0" | 1 => "1" | 2 => "2" | 3 => "3" | 4 => "4" | 5 => "5"
  | 6 => "6" | 7 => "7" | 8 => "8" | 9 => "9" | 10 => "a" | 11 => "b"
  | 12 => "c" | 13 => "d" | 14 => "e" | _ => "f"
  end%N%char.

(** ['\\u{0:04x}'.format(n)] for a code point below 256 *)
Definition u_escape (n : N) : string :=
  String backslash
    (String "u" (String "0" (String "0"
       (String (hex_digit (n / 16)) (String (hex_digit (n mod 16)) ""))))).

(** [ESCAPE_ASCII] matches a backslash, a double quote and everything
    outside the range from space to tilde; [ESCAPE_DCT] gives the short
    escapes. *)
Definition escape_char (c : ascii) : string :=
  let n := N_of_ascii c in
  if (n =? 92)%N then String backslash (String backslash "")
  else if (n =? 34)%N then String backslash (String dquote "")
  else if (n =? 8)%N then String backslash "b"
  else if (n =? 12)%N then String backslash "f"
  else if (n =? 10)%N then String backslash "n"
  else if (n =? 13)%N then String backslash "r"
  else if (n =? 9)%N then String backslash "t"
  else if ((32 <=? n) && (n <=? 126))%N then String c ""
  else u_escape n.

Fixpoint escape_string (s : string) : string :=
  match s with
  | EmptyString => EmptyString
  | String c s' => escape_char c ++ escape_string s'
  end.

(** [py_encode_basestring_ascii] *)
Definition encode_basestring_ascii (s : string) : string :=
  String dquote (escape_string s ++ String dquote "").

(** [', '.join(chunks)] *)
Fixpoint join_comma (chunks : list string) : string :=
  match chunks with
  | [] => ""
  | [c] => c
  | c :: chunks' => c ++ ", " ++ join_comma chunks'
  end.

Definition not_serializable (type_name : string) : exn :=
  Exn TypeError ("Object of type " ++ type_name ++ " is not JSON serializable").

(** One [key: value] chunk of an object; the value is encoded when the
    chunk is reached. *)
Definition member (kv : string * result string) : result string :=
  bind_result (snd kv) (fun s =>
    Return (encode_basestring_ascii (fst kv) ++ ": " ++ s)).

Fixpoint dumps (v : pyval) : result string :=
  match v with
  | PNone => Return "null"
  | PBool b => Return (if b then "true" else "false")
  | PInt n => Return (pretty n)
  | PStr s => Return (encode_basestring_ascii s)
  | PList l | PTuple l =>
      bind_result (sequence_results (List.map dumps l)) (fun chunks =>
        Return ("[" ++ join_comma chunks ++ "]"))
  | PDict d =>
      let encoded := List.map (fun kv => (fst kv, dumps (snd kv))) d in
      bind_result
        (sequence_results (List.map member (sorted_items encoded)))
        (fun chunks => Return ("{" ++ join_comma chunks ++ "}"))
  | PObject type_name => Raise (not_serializable type_name)
  end.

End Json.

(** ** hashlib.md5(data).hexdigest() *)

Module MD5.

Local Open Scope Z_scope.

Definition mask32 (x : Z) : Z := Z.land x 0xFFFFFFFF.

Definition rotl (x c : Z) : Z :=
  mask32 (Z.lor (Z.shiftl x c) (Z.shiftr x (32 - c))).

Definition not32 (x : Z) : Z := Z.lxor x 0xFFFFFFFF.

Definition shifts : list Z :=
  [7; 12; 17; 22; 7; 12; 17; 22; 7; 12; 17; 22; 7; 12; 17; 22;
   5; 9; 14; 20; 5; 9; 14; 20; 5; 9; 14; 20; 5; 9; 14; 20;
   4; 11; 16; 23; 4; 11; 16; 23; 4; 11; 16; 23; 4; 11; 16; 23;
   6; 10; 15; 21; 6; 10; 15; 21; 6; 10; 15; 21; 6; 10; 15; 21].

(** [floor(2^32 * abs(sin(i + 1)))] *)
Definition sines : list Z :=
  [3614090360; 3905402710; 606105819; 3250441966; 4118548399; 1200080426;
   2821735955; 4249261313; 1770035416; 2336552879; 4294925233; 2304563134;
   1804603682; 4254626195; 2792965006; 1236535329; 4129170786; 3225465664;
   643717713; 3921069994; 3593408605; 38016083; 3634488961; 3889429448;
   568446438; 3275163606; 4107603335; 1163531501; 2850285829; 4243563512;
   1735328473; 2368359562; 4294588738; 2272392833; 1839030562; 4259657740;
   2763975236; 1272893353; 4139469664; 3200236656; 681279174; 3936430074;
   3572445317; 76029189; 3654602809; 3873151461; 530742520; 3299628645;
   4096336452; 1126891415; 2878612391; 4237533241; 1700485571; 2399980690;
   4293915773; 2240044497; 1873313359; 4264355552; 2734768916; 1309151649;
   4149444226; 3174756917; 718787259; 3951481745].

Definition nthZ (l : list Z) (i : Z) : Z := nth (Z.to_nat i) l 0.

Fixpoint bytes_of_string (s : string) : list Z :=
  match s with
  | EmptyString => []
  | String c s' => Z.of_N (N_of_ascii c) :: bytes_of_string s'
  end.

(** [n] bytes of [x], least significant first *)
Fixpoint le_bytes (n : nat) (x : Z) : list Z :=
  match n with
  | O => []
  | S n' => Z.land x 0xFF :: le_bytes n' (Z.shiftr x 8)
  end.

Definition pad (msg : list Z) : list Z :=
  let len := Z.of_nat (length msg) in
  msg ++ [0x80] ++ replicate (Z.to_nat ((55 - len) mod 64)) 0
      ++ le_bytes 8 (Z.land (8 * len) 0xFFFFFFFFFFFFFFFF).

Fixpoint le_words (fuel : nat) (bs : list Z) : list Z :=
  match fuel, bs with
  | S fuel', b0 :: b1 :: b2 :: b3 :: bs' =>
      (b0 + Z.shiftl b1 8 + Z.shiftl b2 16 + Z.shiftl b3 24)
        :: le_words fuel' bs'
  | _, _ => []
  end.

Definition state : Type := Z * Z * Z * Z.

Definition step (M : list Z) (st : state) (i : Z) : state :=
  let '(A, B, C, D) := st in
  let '(F, g) :=
    if i <? 16 then (Z.lor (Z.land B C) (Z.land (not32 B) D), i)
    else if i <? 32 then
      (Z.lor (Z.land D B) (Z.land (not32 D) C), (5 * i + 1) mod 16)
    else if i <? 48 then (Z.lxor (Z.lxor B C) D, (3 * i + 5) mod 16)
    else (Z.lxor C (Z.lor B (not32 D)), (7 * i) mod 16) in
  let F' := mask32 (F + A + nthZ sines i + nthZ M g) in
  (D, mask32 (B + rotl F' (nthZ shifts i)), B, C).

Definition compress (st : state) (M : list Z) : state :=
  let '(a0, b0, c0, d0) := st in
  let '(A, B, C, D) := foldl (step M) st (seqZ 0 64) in
  (mask32 (a0 + A), mask32 (b0 + B), mask32 (c0 + C), mask32 (d0 + D)).

Fixpoint blocks (fuel : nat) (ws : list Z) : list (list Z) :=
  match fuel, ws with
  | S fuel', _ :: _ => take 16 ws :: blocks fuel' (drop 16 ws)
  | _, _ => []
  end.

Definition initial : state :=
  (0x67452301, 0xefcdab89, 0x98badcfe, 0x10325476).

Definition digest (msg : list Z) : list Z :=
  let bs := pad msg in
  let ws := le_words (length bs) bs in
  let '(a, b, c, d) := foldl compress initial (blocks (length ws) ws) in
  le_bytes 4 a ++ le_bytes 4 b ++ le_bytes 4 c ++ le_bytes 4 d.

Fixpoint hex (bs : list Z) : string :=
  match bs with
  | [] => EmptyString
  | b :: bs' =>
      String (Json.hex_digit (Z.to_N (b / 16)))
        (String (Json.hex_digit (Z.to_N (b mod 16))) (hex bs'))
  end.

Definition hexdigest (data : string) : string :=
  hex (digest (bytes_of_string data)).

End MD5.

(** ** ToolMetadata and BaseTool *)

(** [input_schema]: the code reads its ["required"] entry only; [None] is
    a schema without that key. *)
Record Schema : Type := { required : option (list string) }.

Record ToolMetadata : Type := {
  name : string;
  description : string;
  input_schema : Schema;
  output_schema : pyval;
  version : string;
  tags : list string;
  timeout : option Q;
  retry_attempts : Z;
  cache_enabled : bool
}.

(** One call of [tool.execute( **kwargs)]: the tool's name and the arguments. *)
Definition invocation : Type := string * kwargs.

(** What the coroutine of a handler does.
    - [elapsed], [finish]: the time it takes when it is left to finish, and
      the value it returns or the exception it raises then.
    - [arguments]: the arguments as it leaves them. The values bound to
      [**kwargs] are the objects of the caller: a handler that appends to a
      list or writes into a dictionary among them changes what
      [execute_tool] holds in its own [kwargs].
    - [yields t]: whether a cancellation requested after the time [t]
      stops it. [asyncio] delivers [CancelledError] where the coroutine is
      suspended at an [await]; a coroutine that does not await before it
      is done, or that absorbs the [CancelledError], runs to its end. *)
Record run : Type := {
  elapsed : Q;
  finish : result pyval;
  arguments : kwargs;
  yields : Q -> bool
}.

(** [execute] is abstract in [BaseTool]. A handler is arbitrary code: what
    it does may depend on everything handlers have been asked before. *)
Record BaseTool : Type := {
  metadata : ToolMetadata;
  execute : kwargs -> list invocation -> run
}.

Definition missing_field (field : string) : exn :=
  Exn ToolValidationError ("Required field '" ++ field ++ "' is missing").

Fixpoint check_required (required_fields : list string) (kw : kwargs)
  : result bool :=
  match required_fields with
  | [] => Return true
  | field :: fields =>
      if contains field kw then check_required fields kw
      else Raise (missing_field field)
  end.

(** [self.metadata.input_schema.get("required", [])] *)
Definition required_fields (tool : BaseTool) : list string :=
  match required (input_schema (metadata tool)) with
  | Some fields => fields
  | None => []
  end.

Definition validate_input (tool : BaseTool) (kw : kwargs) : result bool :=
  check_required (required_fields tool) kw.

Definition cache_data (tool : BaseTool) (kw : kwargs) : pyval :=
  PDict [("tool", PStr (name (metadata tool)));
         ("version", PStr (version (metadata tool)));
         ("params",
          PList (List.map (fun kv => PTuple [PStr (fst kv); snd kv])
                          (sorted_items kw)))].

Definition get_cache_key (tool : BaseTool) (kw : kwargs) : result string :=
  bind_result (Json.dumps (cache_data tool kw)) (fun cache_str =>
    Return (MD5.hexdigest cache_str)).

(** ** ToolRegistry *)

Inductive level : Type := DEBUG | INFO | WARNING | ERROR.

Record ToolRegistry : Type := {
  _tools : dict BaseTool;
  _cache : gmap string pyval;
  logger : list (level * string);
  history : list invocation (* the handler calls made so far *)
}.

(** [ToolRegistry()] *)
Definition init (h : list invocation) : ToolRegistry :=
  {| _tools := []; _cache := ∅; logger := []; history := h |}.

Definition log (lvl : level) (msg : string) (r : ToolRegistry) : ToolRegistry :=
  {| _tools := _tools r; _cache := _cache r;
     logger := logger r ++ [(lvl, msg)]; history := history r |}.

Definition with_tools (t : dict BaseTool) (r : ToolRegistry) : ToolRegistry :=
  {| _tools := t; _cache := _cache r; logger := logger r;
     history := history r |}.

Definition with_cache (c : gmap string pyval) (r : ToolRegistry)
  : ToolRegistry :=
  {| _tools := _tools r; _cache := c; logger := logger r;
     history := history r |}.

Definition called (i : invocation) (r : ToolRegistry) : ToolRegistry :=
  {| _tools := _tools r; _cache := _cache r; logger := logger r;
     history := history r ++ [i] |}.

Definition register (tool : BaseTool) (r : ToolRegistry) : ToolRegistry :=
  let n := name (metadata tool) in
  let r1 :=
    if contains n (_tools r)
    then log WARNING ("Tool '" ++ n ++ "' already registered, overwriting") r
    else r in
  log INFO ("Registered tool: " ++ n) (with_tools (set n tool (_tools r1)) r1).

Definition unregister (tool_name : string) (r : ToolRegistry) : ToolRegistry :=
  if contains tool_name (_tools r)
  then log INFO ("Unregistered tool: " ++ tool_name)
         (with_tools (del tool_name (_tools r)) r)
  else log WARNING ("Tool '" ++ tool_name ++ "' not found in registry") r.

Definition get_tool (tool_name : string) (r : ToolRegistry) : option BaseTool :=
  get tool_name (_tools r).

Definition list_tools (r : ToolRegistry) : list string := keys (_tools r).

Definition get_tool_metadata (tool_name : string) (r : ToolRegistry)
  : option ToolMetadata :=
  match get_tool tool_name r with
  | Some tool => Some (metadata tool)
  | None => None
  end.

Definition clear_cache (r : ToolRegistry) : ToolRegistry :=
  log INFO "Tool cache cleared" (with_cache ∅ r).

(** ** execute_tool *)

(** A computation on the registry that returns or raises; what it has done
    to the registry before raising stays done. *)
Definition M (A : Type) : Type := ToolRegistry -> result A * ToolRegistry.

Definition ret {A} (a : A) : M A := fun r => (Return a, r).

Definition raise {A} (e : exn) : M A := fun r => (Raise e, r).

Definition bind {A B} (m : M A) (k : A -> M B) : M B :=
  fun r =>
    match m r with
    | (Return a, r') => k a r'
    | (Raise e, r') => (Raise e, r')
    end.

Definition lift {A} (x : result A) : M A := fun r => (x, r).

Definition read {A} (f : ToolRegistry -> A) : M A := fun r => (Return (f r), r).

Definition update (f : ToolRegistry -> ToolRegistry) : M unit :=
  fun r => (Return tt, f r).

(** [try: body except ...: handler] *)
Definition try_except {A} (body : M A) (handler : exn -> M A) : M A :=
  fun r =>
    match body r with
    | (Return a, r') => (Return a, r')
    | (Raise e, r') => handler e r'
    end.

Notation "'let*' x ':=' m 'in' k" := (bind m (fun x => k))
  (at level 10, x name, m at level 100, k at level 200).
Notation "'do' m 'then' k" := (bind m (fun _ => k))
  (at level 10, m at level 100, k at level 200).

Definition not_found (tool_name : string) : exn :=
  Exn ToolError ("Tool '" ++ tool_name ++ "' not found").

Definition timed_out (tool_name : string) : exn :=
  Exn ToolTimeoutError ("Tool '" ++ tool_name ++ "' execution timed out").

Definition execution_failed (e : exn) : exn :=
  Exn ToolError ("Tool execution failed: " ++ exn_str e).

(** [if tool.metadata.timeout:] holds for a number other than zero. *)
Definition truthy (t : option Q) : option Q :=
  match t with
  | Some q => if Qeq_bool q 0 then None else Some q
  | None => None
  end.

(** [asyncio.wait_for(coro, timeout)]: a time-out that is not positive
    cancels the coroutine before it has started; otherwise the coroutine is
    asked to stop when it has not finished in time, and [wait_for] raises
    [asyncio.TimeoutError] when that request stops it. A coroutine the
    request does not stop runs to its end, and [wait_for] returns or raises
    what it does. *)
Definition wait_for (h : run) (t : Q) : result pyval :=
  if Qle_bool t 0 then Raise (Exn AsyncioTimeoutError "")
  else if Qle_bool (elapsed h) t then finish h
  else if yields h t then Raise (Exn AsyncioTimeoutError "")
  else finish h.

(** [tool.execute( **kwargs)], the coroutine the handler returns *)
Definition call_execute (tool : BaseTool) (kw : kwargs) : M run :=
  fun r =>
    (Return (execute tool kw (history r)),
     called (name (metadata tool), kw) r).

(** The [await] of the coroutine, under [wait_for] when
    [tool.metadata.timeout] is true. *)
Definition await_handler (tool : BaseTool) (coro : run) : result pyval :=
  match truthy (timeout (metadata tool)) with
  | Some t => wait_for coro t
  | None => finish coro
  end.

(** "Check cache if enabled": the cached value, if there is one. *)
Definition cache_lookup (tool : BaseTool) (kw : kwargs) : M (option pyval) :=
  if cache_enabled (metadata tool) then
    let* cache_key := lift (get_cache_key tool kw) in
    read (fun r => _cache r !! cache_key)
  else ret None.

(** "Cache result if enabled": the key is derived again, from the
    arguments as they are by then. *)
Definition cache_store (tool : BaseTool) (kw : kwargs) (value : pyval)
  : M unit :=
  if cache_enabled (metadata tool) then
    let* cache_key := lift (get_cache_key tool kw) in
    update (fun r => with_cache (<[cache_key := value]> (_cache r)) r)
  else ret tt.

Definition execute_tool (tool_name : string) (kw : kwargs) : M pyval :=
  let* found := read (get_tool tool_name) in
  match found with
  | None => raise (not_found tool_name)
  | Some tool =>
      do lift (validate_input tool kw) then
      let* hit := cache_lookup tool kw in
      match hit with
      | Some cached =>
          do update (log DEBUG ("Cache hit for tool '" ++ tool_name ++ "'")) then
          ret cached
      | None =>
          try_except
            (let* coro := call_execute tool kw in
             let* value := lift (await_handler tool coro) in
             do cache_store tool (arguments coro) value then
             ret value)
            (fun e =>
               match exn_class e with
               | AsyncioTimeoutError => raise (timed_out tool_name)
               | _ =>
                   do update (log ERROR ("Error executing tool '" ++ tool_name
                                         ++ "': " ++ exn_str e)) then
                   raise (execution_failed e)
               end)
      end
  end.

(** ** The failure taxonomy of the execution engine *)

Inductive kind : Type := NotFound | ValidationError | TimeoutError | ExecutionError.

Inductive has_kind (tool_name : string) : exn -> kind -> Prop :=
| kind_not_found : has_kind tool_name (not_found tool_name) NotFound
| kind_validation field :
    has_kind tool_name (missing_field field) ValidationError
| kind_timeout : has_kind tool_name (timed_out tool_name) TimeoutError
| kind_execution e :
    has_kind tool_name (execution_failed e) ExecutionError.

(** The ways [execute_tool] raises, by the place in its body. *)
Inductive failure (tool_name : string) (kw : kwargs) (r : ToolRegistry)
  (e : exn) : Prop :=
| fails_not_found :
    get_tool tool_name r = None -> e = not_found tool_name ->
    failure tool_name kw r e
| fails_validation tool field :
    get_tool tool_name r = Some tool ->
    validate_input tool kw = Raise e -> e = missing_field field ->
    failure tool_name kw r e
| fails_cache_key tool :
    get_tool tool_name r = Some tool ->
    validate_input tool kw = Return true ->
    cache_enabled (metadata tool) = true ->
    get_cache_key tool kw = Raise e ->
    failure tool_name kw r e
| fails_timeout tool e0 :
    get_tool tool_name r = Some tool ->
    validate_input tool kw = Return true ->
    cache_lookup tool kw r = (Return None, r) ->
    await_handler tool (execute tool kw (history r)) = Raise e0 ->
    exn_class e0 = AsyncioTimeoutError -> e = timed_out tool_name ->
    failure tool_name kw r e
| fails_execution tool e0 :
    get_tool tool_name r = Some tool ->
    validate_input tool kw = Return true ->
    cache_lookup tool kw r = (Return None, r) ->
    await_handler tool (execute tool kw (history r)) = Raise e0 ->
    exn_class e0 <> AsyncioTimeoutError -> e = execution_failed e0 ->
    failure tool_name kw r e
| fails_store tool value e0 :
    get_tool tool_name r = Some tool ->
    validate_input tool kw = Return true ->
    cache_lookup tool kw r = (Return None, r) ->
    await_handler tool (execute tool kw (history r)) = Return value ->
    cache_enabled (metadata tool) = true ->
    get_cache_key tool (arguments (execute tool kw (history r))) = Raise e0 ->
    e = execution_failed e0 ->
    failure tool_name kw r e.

(** ** Example tools *)

Definition describe (n : string) (fields : list string) (t : option Q)
  (cached : bool) : ToolMetadata :=
  {| name := n; description := ""; input_schema := {| required := Some fields |};
     output_schema := PNone; version := "1.0.0"; tags := [];
     timeout := t; retry_attempts := 3; cache_enabled := cached |}.

(** Returns its arguments unchanged. *)
Definition echo : BaseTool :=
  {| metadata := describe "echo" [] None true;
     execute := fun kw _ =>
       {| elapsed := 0; finish := Return (PDict kw);
          arguments := kw; yields := fun _ => true |} |}.

(** Requires the field ["query"]. *)
Definition need_query : BaseTool :=
  {| metadata := describe "need_query" ["query"] None true;
     execute := fun kw _ =>
       {| elapsed := 0; finish := Return PNone;
          arguments := kw; yields := fun _ => true |} |}.

(** Returns how many handler calls were made before this one. *)
Definition counter : BaseTool :=
  {| metadata := describe "counter" [] None true;
     execute := fun kw h =>
       {| elapsed := 0; finish := Return (PInt (Z.of_nat (length h)));
          arguments := kw; yields := fun _ => true |} |}.

(** Sleeps for half a second, in [asyncio.sleep], under the time-out [t]. *)
Definition sleepy (t : option Q) : BaseTool :=
  {| metadata := describe "sleepy" [] t true;
     execute := fun kw _ =>
       {| elapsed := 1 # 2; finish := Return (PStr "late");
          arguments := kw; yields := fun _ => true |} |}.

(** Raises the exception [e] at once. *)
Definition failing (e : exn) : BaseTool :=
  {| metadata := describe "failing" [] None true;
     execute := fun kw _ =>
       {| elapsed := 0; finish := Raise e;
          arguments := kw; yields := fun _ => true |} |}.

(** The tool named ["t"] of version ["1"]. *)
Definition tool_t : BaseTool :=
  {| metadata :=
       {| name := "t"; description := ""; input_schema := {| required := None |};
          output_schema := PNone; version := "1"; tags := [];
          timeout := None; retry_attempts := 3; cache_enabled := true |};
     execute := fun kw _ =>
       {| elapsed := 0; finish := Return PNone;
          arguments := kw; yields := fun _ => true |} |}.

(** ** More example tools *)

(** The counter, with its results not cached. *)
Definition uncached_counter : BaseTool :=
  {| metadata := describe "counter" [] None false;
     execute := execute counter |}.

(** Another tool of the counter's name and version. *)
Definition counter_replacement : BaseTool :=
  {| metadata := describe "counter" [] None true;
     execute := fun kw _ =>
       {| elapsed := 0; finish := Return (PStr "replaced");
          arguments := kw; yields := fun _ => true |} |}.


(** [items.append(0)], in place *)
Definition append_to_items (kw : kwargs) : kwargs :=
  match get "items" kw with
  | Some (PList items) => set "items" (PList (items ++ [PInt 0])) kw
  | _ => kw
  end.

(** Appends to the list it is given as ["items"] and returns how many
    handler calls were made before this one. *)
Definition appender : BaseTool :=
  {| metadata := describe "appender" [] None true;
     execute := fun kw h =>
       {| elapsed := 0; finish := Return (PInt (Z.of_nat (length h)));
          arguments := append_to_items kw; yields := fun _ => true |} |}.

(** [items.append(object())]: what it appends, json cannot encode. *)
Definition spoil_items (kw : kwargs) : kwargs :=
  match get "items" kw with
  | Some (PList items) => set "items" (PList (items ++ [PObject "object"])) kw
  | _ => kw
  end.

Definition spoiler : BaseTool :=
  {| metadata := describe "spoiler" [] None true;
     execute := fun kw _ =>
       {| elapsed := 0; finish := Return (PStr "done");
          arguments := spoil_items kw; yields := fun _ => true |} |}.

(** The handlers of the registered tools leave their arguments as they got
    them. *)
Definition handlers_keep_arguments (r : ToolRegistry) : Prop :=
  forall tool_name tool kw h,
    get_tool tool_name r = Some tool -> arguments (execute tool kw h) = kw.

(** The computation [x] returns a value. *)
Definition returns {A} (x : result A) : Prop := exists a, x = Return a.

(** ** Values json can encode; invariants of the registry *)

(** No value that [json.dumps] rejects occurs in [v]. *)
Fixpoint encodable (v : pyval) : bool :=
  match v with
  | PNone | PBool _ | PInt _ | PStr _ => true
  | PList l | PTuple l => forallb encodable l
  | PDict d => forallb (fun kv => encodable (snd kv)) d
  | PObject _ => false
  end.

(** Every tool is stored under the name of its own metadata, as [register]
    stores it, and no name is stored twice. *)
Definition consistent (r : ToolRegistry) : Prop :=
  wf (_tools r) /\
  forall n tool, get n (_tools r) = Some tool -> name (metadata tool) = n.

(** The operations a user of the registry has. *)
Inductive operation : Type :=
| Register (tool : BaseTool)
| Unregister (tool_name : string)
| ExecuteTool (tool_name : string) (kw : kwargs)
| ClearCache.

Definition perform (r : ToolRegistry) (o : operation) : ToolRegistry :=
  match o with
  | Register tool => register tool r
  | Unregister tool_name => unregister tool_name r
  | ExecuteTool tool_name kw => snd (execute_tool tool_name kw r)
  | ClearCache => clear_cache r
  end.

(** What one call of [execute_tool] returns or raises and the registry it
    leaves, by the path taken through its body. *)
Inductive outcome (tool_name : string) (kw : kwargs) (r : ToolRegistry)
  : result pyval * ToolRegistry -> Prop :=
| out_not_found :
    get_tool tool_name r = None ->
    outcome tool_name kw r (Raise (not_found tool_name), r)
| out_invalid tool field :
    get_tool tool_name r = Some tool ->
    validate_input tool kw = Raise (missing_field field) ->
    outcome tool_name kw r (Raise (missing_field field), r)
| out_key_error tool e :
    get_tool tool_name r = Some tool ->
    validate_input tool kw = Return true ->
    cache_enabled (metadata tool) = true ->
    get_cache_key tool kw = Raise e ->
    outcome tool_name kw r (Raise e, r)
| out_hit tool cache_key cached :
    get_tool tool_name r = Some tool ->
    validate_input tool kw = Return true ->
    cache_enabled (metadata tool) = true ->
    get_cache_key tool kw = Return cache_key ->
    _cache r !! cache_key = Some cached ->
    outcome tool_name kw r
      (Return cached, log DEBUG ("Cache hit for tool '" ++ tool_name ++ "'") r)
| out_returns_uncached tool value :
    get_tool tool_name r = Some tool ->
    validate_input tool kw = Return true ->
    cache_enabled (metadata tool) = false ->
    await_handler tool (execute tool kw (history r)) = Return value ->
    outcome tool_name kw r
      (Return value, called (name (metadata tool), kw) r)
| out_returns_cached tool cache_key value :
    get_tool tool_name r = Some tool ->
    validate_input tool kw = Return true ->
    cache_enabled (metadata tool) = true ->
    cache_lookup tool kw r = (Return None, r) ->
    await_handler tool (execute tool kw (history r)) = Return value ->
    get_cache_key tool (arguments (execute tool kw (history r)))
      = Return cache_key ->
    outcome tool_name kw r
      (Return value,
       with_cache (<[cache_key := value]> (_cache r))
         (called (name (metadata tool), kw) r))
| out_store_failed tool value e :
    get_tool tool_name r = Some tool ->
    validate_input tool kw = Return true ->
    cache_enabled (metadata tool) = true ->
    cache_lookup tool kw r = (Return None, r) ->
    await_handler tool (execute tool kw (history r)) = Return value ->
    get_cache_key tool (arguments (execute tool kw (history r))) = Raise e ->
    outcome tool_name kw r
      (Raise (execution_failed e),
       log ERROR ("Error executing tool '" ++ tool_name ++ "': " ++ exn_str e)
         (called (name (metadata tool), kw) r))
| out_timed_out tool e :
    get_tool tool_name r = Some tool ->
    validate_input tool kw = Return true ->
    cache_lookup tool kw r = (Return None, r) ->
    await_handler tool (execute tool kw (history r)) = Raise e ->
    exn_class e = AsyncioTimeoutError ->
    outcome tool_name kw r
      (Raise (timed_out tool_name), called (name (metadata tool), kw) r)
| out_failed tool e :
    get_tool tool_name r = Some tool ->
    validate_input tool kw = Return true ->
    cache_lookup tool kw r = (Return None, r) ->
    await_handler tool (execute tool kw (history r)) = Raise e ->
    exn_class e <> AsyncioTimeoutError ->
    outcome tool_name kw r
      (Raise (execution_failed e),
       log ERROR ("Error executing tool '" ++ tool_name ++ "': " ++ exn_str e)
         (called (name (metadata tool), kw) r)).

(** ** The server's use of the registry (src/server.py)

    The payload of a request is what [json.loads] returns (numbers are
    integers here). A request has passed the validation of [MCPRequest];
    the lines the server writes to its own logger are left out. *)

#[warnings="-register-all"]
Inductive json : Type :=
| JNull
| JBool (b : bool)
| JInt (n : Z)
| JStr (s : string)
| JList (l : list json)
| JDict (d : list (string * json)).

Fixpoint to_pyval (j : json) : pyval :=
  match j with
  | JNull => PNone
  | JBool b => PBool b
  | JInt n => PInt n
  | JStr s => PStr s
  | JList l => PList (List.map to_pyval l)
  | JDict d => PDict (List.map (fun kv => (fst kv, to_pyval (snd kv))) d)
  end.

(** Induction on payloads, through the lists and dictionaries they hold. *)
Section json_induction.
Variable P : json -> Prop.
Hypothesis HNull : P JNull.
Hypothesis HBool : forall b, P (JBool b).
Hypothesis HInt : forall n, P (JInt n).
Hypothesis HStr : forall s, P (JStr s).
Hypothesis HList : forall l, Forall P l -> P (JList l).
Hypothesis HDict : forall d, Forall (fun kv => P (snd kv)) d -> P (JDict d).

Fixpoint json_nested_ind (j : json) : P j :=
  match j with
  | JNull => HNull
  | JBool b => HBool b
  | JInt n => HInt n
  | JStr s => HStr s
  | JList l =>
      HList l ((fix all (l : list json) : Forall P l :=
                  match l with
                  | [] => Forall_nil_2 P
                  | x :: l' => Forall_cons_2 P x l' (json_nested_ind x) (all l')
                  end) l)
  | JDict d =>
      HDict d ((fix all (d : list (string * json))
                  : Forall (fun kv => P (snd kv)) d :=
                  match d with
                  | [] => Forall_nil_2 _
                  | kv :: d' =>
                      Forall_cons_2 (fun kv => P (snd kv)) kv d'
                        (json_nested_ind (snd kv)) (all d')
                  end) d)
  end.
End json_induction.

(** The arguments the server passes on: the items of the dictionary the
    request gives, as Python values. *)
Definition kwargs_of (d : dict json) : kwargs :=
  List.map (fun kv => (fst kv, to_pyval (snd kv))) d.

(** The truth value of [j], as [if not j] tests it. *)
Definition json_true (j : json) : bool :=
  match j with
  | JNull => false
  | JBool b => b
  | JInt n => negb (n =? 0)%Z
  | JStr s => negb (String.eqb s "")
  | JList l => match l with [] => false | _ => true end
  | JDict d => match d with [] => false | _ => true end
  end.

(** [type(j).__name__] *)
Definition json_type_name (j : json) : string :=
  match j with
  | JNull => "NoneType"
  | JBool _ => "bool"
  | JInt _ => "int"
  | JStr _ => "str"
  | JList _ => "list"
  | JDict _ => "dict"
  end.

Record MCPRequest : Type := {
  req_id : string;
  method : string;
  params : option (dict json)
}.

(** One entry of the answer to ["tools/list"]. *)
Record tool_entry : Type := {
  entry_name : string;
  entry_description : string;
  entry_inputSchema : Schema
}.

(** The [result] of a response: a value ([None] when there is none) or the
    list of tools. *)
Inductive payload : Type :=
| Value (v : pyval)
| Tools (entries : list tool_entry).

(** [error] is the dictionary of a code and a message. *)
Record MCPResponse : Type := {
  resp_id : string;
  resp_result : payload;
  resp_error : option (Z * string)
}.

Definition result_response (i : string) (p : payload) : MCPResponse :=
  {| resp_id := i; resp_result := p; resp_error := None |}.

Definition error_response (i : string) (code : Z) (message : string)
  : MCPResponse :=
  {| resp_id := i; resp_result := Value PNone;
     resp_error := Some (code, message) |}.

(** [isinstance(e, ToolError)] *)
Definition is_tool_error (c : exc_class) : bool :=
  match c with
  | ToolError | ToolTimeoutError | ToolValidationError => true
  | _ => false
  end.

(** The first key of [d] that is the name of a parameter [execute_tool]
    has already received. *)
Fixpoint first_clash (d : dict json) : option string :=
  match d with
  | [] => None
  | (k, _) :: d' =>
      if String.eqb k "self" || String.eqb k "tool_name" then Some k
      else first_clash d'
  end.

(** The call [execute_tool(tool_name, **tool_params)] binds
    [tool_params] to [**kwargs]: it has to be a dictionary, and none of its
    keys may name the parameters [self] and [tool_name]. (The texts are
    those of Python 3.10 and later; the server does not show them.) *)
Definition bind_kwargs (tool_params : json) : result kwargs :=
  match tool_params with
  | JDict d =>
      match first_clash d with
      | Some k =>
          Raise (Exn TypeError
                   ("ToolRegistry.execute_tool() got multiple values for argument '"
                    ++ k ++ "'"))
      | None => Return (kwargs_of d)
      end
  | _ =>
      Raise (Exn TypeError
               ("ToolRegistry.execute_tool() argument after ** must be a mapping, not "
                ++ json_type_name tool_params))
  end.

(** [execute_tool] called with the name the request gives. For a name
    that is not a string [self._tools.get(tool_name)] cannot hash a list or
    a dictionary and finds nothing under any other value. *)
Definition execute_tool_named (tool_name : json) (kw : kwargs) : M pyval :=
  match tool_name with
  | JStr s => execute_tool s kw
  | JList _ => raise (Exn TypeError "unhashable type: 'list'")
  | JDict _ => raise (Exn TypeError "unhashable type: 'dict'")
  | JNull => raise (not_found "None")
  | JBool b => raise (not_found (if b then "True" else "False"))
  | JInt n => raise (not_found (pretty n))
  end.

(** [request.params.get("name")] and [request.params.get("arguments", {})] *)
Definition param_name (p : dict json) : json :=
  match get "name" p with Some j => j | None => JNull end.

Definition param_arguments (p : dict json) : json :=
  match get "arguments" p with Some j => j | None => JDict [] end.

(** The loop over [list_tools()] that collects the entries. *)
Fixpoint tool_entries (names : list string) (r : ToolRegistry)
  : list tool_entry :=
  match names with
  | [] => []
  | tool_name :: names' =>
      match get_tool_metadata tool_name r with
      | Some m =>
          {| entry_name := name m; entry_description := description m;
             entry_inputSchema := input_schema m |} :: tool_entries names' r
      | None => tool_entries names' r
      end
  end.

(** The [except] clauses the two entry points share: the message of a
    [ToolError] is passed on, anything else is an internal error. *)
Definition answer_exception (i : string) (e : exn) : M MCPResponse :=
  if is_tool_error (exn_class e)
  then ret (error_response i (-32603) (exn_str e))
  else ret (error_response i (-32603) "Internal server error").

(** [MCPServer._process_message], from the validated request on. *)
Definition _process_message (request : MCPRequest) : M MCPResponse :=
  try_except
    (if String.eqb (method request) "tools/list" then
       let* entries := read (fun r => tool_entries (list_tools r) r) in
       ret (result_response (req_id request) (Tools entries))
     else if String.eqb (method request) "tools/call" then
       match params request with
       | None | Some [] =>
           ret (error_response (req_id request) (-32602) "Invalid params")
       | Some p =>
           if negb (json_true (param_name p)) then
             ret (error_response (req_id request) (-32602) "Missing tool name")
           else
             let* kw := lift (bind_kwargs (param_arguments p)) in
             let* value := execute_tool_named (param_name p) kw in
             ret (result_response (req_id request) (Value value))
       end
     else
       ret (error_response (req_id request) (-32601)
              ("Method not found: " ++ method request)))
    (answer_exception (req_id request)).

(** [HTTPException(status_code=400, detail=...)] *)
Definition HTTPException_400 (detail : string) : exn :=
  Exn (OtherException "HTTPException") ("400: " ++ detail).

(** The handler of [POST /execute]. *)
Definition http_execute (request : MCPRequest) : M MCPResponse :=
  try_except
    (if negb (String.eqb (method request) "tools/call") then
       raise (HTTPException_400 "Invalid method")
     else
       match params request with
       | None | Some [] => raise (HTTPException_400 "Missing parameters")
       | Some p =>
           if negb (json_true (param_name p)) then
             raise (HTTPException_400 "Missing tool name")
           else
             let* kw := lift (bind_kwargs (param_arguments p)) in
             let* value := execute_tool_named (param_name p) kw in
             ret (result_response (req_id request) (Value value))
       end)
    (answer_exception (req_id request)).

(** A request that [tools/call] takes to the registry. *)
Definition well_formed_call (request : MCPRequest) (p : dict json) : Prop :=
  method request = "tools/call" /\ params request = Some p /\ p <> [] /\
  json_true (param_name p) = true.

(** ** The tools a server starts with (src/server.py)

    [MCPServer._register_default_tools]. The metadata are those of the
    source ([version], [retry_attempts] and [cache_enabled] at the defaults
    of [ToolMetadata]); what the handlers do, the clock, the search and the
    file system, is left open. *)

Definition handler : Type := kwargs -> list invocation -> run.

(** The body of an [async def] that has no [await], as the three tools
    below have it: the time it takes and what it returns or raises. It
    reads its arguments, which are strings and a number, and no
    cancellation stops it. *)
Definition body : Type := kwargs -> list invocation -> Q * result pyval.

Definition without_await (b : body) : handler :=
  fun kw h =>
    {| elapsed := fst (b kw h); finish := snd (b kw h);
       arguments := kw; yields := fun _ => false |}.

Definition GetCurrentTimeTool (now : body) : BaseTool :=
  {| metadata :=
       {| name := "get_current_time";
          description := "Get the current date and time";
          input_schema := {| required := Some [] |};
          output_schema :=
            PDict [("type", PStr "string");
                   ("description", PStr "Current timestamp")];
          version := "1.0.0";
          tags := ["utility"; "time"];
          timeout := None;
          retry_attempts := 3;
          cache_enabled := true |};
     execute := without_await now |}.

Definition SearchWebTool (search : body) : BaseTool :=
  {| metadata :=
       {| name := "search_web";
          description := "Search the web for information";
          input_schema := {| required := Some ["query"] |};
          output_schema :=
            PDict [("type", PStr "array");
                   ("items", PDict [("type", PStr "object")]);
                   ("description", PStr "Search results")];
          version := "1.0.0";
          tags := ["web"; "search"];
          timeout := Some 30%Q;
          retry_attempts := 3;
          cache_enabled := true |};
     execute := without_await search |}.

Definition FileOperationsTool (files : body) : BaseTool :=
  {| metadata :=
       {| name := "file_operations";
          description := "Perform file operations (read, write, list)";
          input_schema := {| required := Some ["operation"; "path"] |};
          output_schema :=
            PDict [("type", PStr "object");
                   ("properties",
                    PDict [("success", PDict [("type", PStr "boolean")]);
                           ("data", PDict [("type", PStr "string")]);
                           ("error", PDict [("type", PStr "string")])])];
          version := "1.0.0";
          tags := ["file"; "system"];
          timeout := Some 10%Q;
          retry_attempts := 3;
          cache_enabled := true |};
     execute := without_await files |}.

Definition _register_default_tools (now search files : body)
  (r : ToolRegistry) : ToolRegistry :=
  register (FileOperationsTool files)
    (register (SearchWebTool search)
       (register (GetCurrentTimeTool now) r)).

(** A clock: the time is the number of handler calls made before. *)
Definition ticking : body :=
  fun _ h => (0%Q, Return (PInt (Z.of_nat (length h)))).

(** A read that takes eleven seconds. *)
Definition slow_read : body :=
  fun _ _ =>
    (11%Q, Return (PDict [("success", PBool true); ("data", PStr "contents");
                        ("error", PStr "")])).

(** ** ConnectionManager (src/server.py)

    A connection is known by a number; [sends c] tells whether
    [send_text] on [c] goes through or raises. *)

Module ConnectionManager.

(** [self.active_connections.remove(websocket)], guarded by
    [if websocket in self.active_connections]: the first occurrence goes. *)
Fixpoint disconnect (websocket : nat) (active_connections : list nat)
  : list nat :=
  match active_connections with
  | [] => []
  | c :: rest =>
      if Nat.eqb websocket c then rest else c :: disconnect websocket rest
  end.

(** [connect], once [websocket.accept()] has returned *)
Definition connect (websocket : nat) (active_connections : list nat)
  : list nat :=
  (active_connections ++ [websocket])%list.

(** The first loop of [broadcast]: the connections whose send raised. *)
Fixpoint failed_sends (sends : nat -> bool) (connections : list nat)
  : list nat :=
  match connections with
  | [] => []
  | c :: rest =>
      if sends c then failed_sends sends rest
      else c :: failed_sends sends rest
  end.

(** The second loop of [broadcast] *)
Fixpoint disconnect_all (disconnected : list nat)
  (active_connections : list nat) : list nat :=
  match disconnected with
  | [] => active_connections
  | c :: rest => disconnect_all rest (disconnect c active_connections)
  end.

Definition broadcast (sends : nat -> bool) (active_connections : list nat)
  : list nat :=
  disconnect_all (failed_sends sends active_connections) active_connections.

(** [send_personal_message] *)
Definition send_personal_message (sends : nat -> bool) (websocket : nat)
  (active_connections : list nat) : list nat :=
  if sends websocket then active_connections
  else disconnect websocket active_connections.

End ConnectionManager.

(** ** MCPConfig.validate (src/config.py) *)

Module Config.

Record MCPConfig : Type := {
  host : string;
  port : Z;
  debug : bool;
  log_level : string;
  log_file : option string;
  log_format : string;
  api_key : option string;
  allowed_origins : list string;
  rate_limit_enabled : bool;
  rate_limit_requests : Z;
  rate_limit_window : Z;
  max_tool_execution_time : Z;
  tool_retry_attempts : Z;
  tool_retry_delay : Q;
  database_url : option string;
  database_pool_size : Z;
  cache_enabled : bool;
  cache_ttl : Z;
  cache_max_size : Z;
  metrics_enabled : bool;
  health_check_interval : Z
}.

(** [if bad: errors.append(message)] *)
Definition check (bad : bool) (message : string) : list string :=
  if bad then [message] else [].

Definition validate (c : MCPConfig) : list string :=
  (check ((port c <? 1)%Z || (65535 <? port c)%Z)
     "Port must be between 1 and 65535"
   ++ check (rate_limit_requests c <? 1)%Z
        "Rate limit requests must be at least 1"
   ++ check (rate_limit_window c <? 1)%Z
        "Rate limit window must be at least 1 second"
   ++ check (max_tool_execution_time c <? 1)%Z
        "Max tool execution time must be at least 1 second"
   ++ check (tool_retry_attempts c <? 0)%Z
        "Tool retry attempts must be non-negative"
   ++ check (negb (Qle_bool 0 (tool_retry_delay c)))
        "Tool retry delay must be non-negative"
   ++ check (cache_ttl c <? 1)%Z "Cache TTL must be at least 1 second"
   ++ check (cache_max_size c <? 1)%Z "Cache max size must be at least 1"
   ++ check (health_check_interval c <? 1)%Z
        "Health check interval must be at least 1 second")%list.

(** [MCPConfig()] *)
Definition default : MCPConfig :=
  {| host := "localhost"; port := 8000; debug := true;
     log_level := "INFO"; log_file := None;
     log_format := "%(asctime)s - %(name)s - %(levelname)s - %(message)s";
     api_key := None; allowed_origins := ["*"];
     rate_limit_enabled := true; rate_limit_requests := 100;
     rate_limit_window := 60;
     max_tool_execution_time := 30; tool_retry_attempts := 3;
     tool_retry_delay := 1;
     database_url := None; database_pool_size := 10;
     cache_enabled := true; cache_ttl := 3600; cache_max_size := 1000;
     metrics_enabled := true; health_check_interval := 30 |}.

End Config.

(** ** Facts about insertion-ordered dictionaries *)

Section dict_facts.
Context {V : Type}.
Implicit Types (d : dict V) (k : string) (v : V).

Lemma contains_keys k d : contains k d = true <-> k ∈ keys d.
Proof.
  unfold contains. induction d as [|[k' v'] d IH]; simpl.
  - split; [discriminate | by intros ?%elem_of_nil].
  - destruct (String.eqb_spec k k') as [->|Hne].
    + split; [intros _; left | done].
    + rewrite IH. split; [by right | by intros [?|?]%elem_of_cons].
Qed.

Lemma contains_false_keys k d : contains k d = false <-> k ∉ keys d.
Proof.
  rewrite <- contains_keys. destruct (contains k d); naive_solver.
Qed.

Lemma get_set_eq k v d : get k (set k v d) = Some v.
Proof.
  induction d as [|[k' v'] d IH]; simpl.
  - by rewrite String.eqb_refl.
  - destruct (String.eqb_spec k k') as [->|Hne]; simpl.
    + by rewrite String.eqb_refl.
    + by destruct (String.eqb_spec k k').
Qed.

Lemma get_set_ne k k' v d : k <> k' -> get k' (set k v d) = get k' d.
Proof.
  intros Hne. induction d as [|[k0 v0] d IH]; simpl.
  - by destruct (String.eqb_spec k' k) as [->|?].
  - destruct (String.eqb_spec k k0) as [->|Hne0]; simpl.
    + by destruct (String.eqb_spec k' k0) as [->|?].
    + by rewrite IH.
Qed.

(** Overwriting an entry leaves the keys and their order as they are. *)
Lemma keys_set_present k v d :
  contains k d = true -> keys (set k v d) = keys d.
Proof.
  unfold contains. induction d as [|[k' v'] d IH]; simpl; [done|].
  destruct (String.eqb_spec k k') as [->|Hne]; simpl; [done|].
  intros H. by rewrite IH.
Qed.

(** A new key goes to the end. *)
Lemma keys_set_absent k v d :
  contains k d = false -> keys (set k v d) = (keys d ++ [k])%list.
Proof.
  unfold contains. induction d as [|[k' v'] d IH]; simpl; [done|].
  destruct (String.eqb_spec k k') as [->|Hne]; simpl; [done|].
  intros H. by rewrite IH.
Qed.

Lemma contains_set k v d : contains k (set k v d) = true.
Proof. unfold contains. by rewrite get_set_eq. Qed.

Lemma wf_set k v d : wf d -> wf (set k v d).
Proof.
  unfold wf. intros Hd. destruct (contains k d) eqn:Hk.
  - by rewrite keys_set_present.
  - rewrite keys_set_absent by done.
    apply NoDup_app. split_and!; [done| |apply NoDup_singleton].
    intros x Hx ->%list_elem_of_singleton.
    by apply contains_false_keys in Hk.
Qed.

Lemma keys_del k d : keys (del k d) ⊆ keys d.
Proof.
  induction d as [|[k' v'] d IH]; simpl; [done|].
  destruct (String.eqb k k'); simpl.
  - by apply list_subseteq_cons.
  - intros x [->|Hx]%elem_of_cons; [left | right; by apply IH].
Qed.

Lemma wf_del k d : wf d -> wf (del k d).
Proof.
  unfold wf. induction d as [|[k' v'] d IH]; simpl; [done|].
  intros [Hk' Hd]%NoDup_cons. destruct (String.eqb k k'); simpl; [done|].
  apply NoDup_cons. split; [|by apply IH].
  intros Hin. by apply keys_del in Hin.
Qed.

(** In a well-formed dictionary a key has one entry, the one [get] finds. *)
Lemma entries_of_key k v d :
  wf d -> get k d = Some v ->
  List.filter (fun kv => String.eqb k (fst kv)) d = [(k, v)].
Proof.
  unfold wf. induction d as [|[k' v'] d IH]; simpl; [done|].
  intros [Hk' Hd]%NoDup_cons. destruct (String.eqb_spec k k') as [->|Hne].
  - intros [= ->]. f_equal.
    clear IH Hd. induction d as [|[k0 v0] d IH]; simpl; [done|].
    simpl in Hk'. apply not_elem_of_cons in Hk' as [Hne Hk'].
    destruct (String.eqb_spec k' k0) as [->|_]; [done | by apply IH].
  - intros Hget. by apply IH.
Qed.

(** A key of a well-formed dictionary has one value. *)
Lemma wf_value_unique k v1 v2 d :
  wf d -> (k, v1) ∈ d -> (k, v2) ∈ d -> v1 = v2.
Proof.
  unfold wf, keys. induction d as [|[k0 v0] d IH]; simpl.
  { by intros _ ?%elem_of_nil. }
  intros [Hk0 Hd]%NoDup_cons H1 H2.
  assert (forall v, (k0, v) ∈ d -> False) as Hfresh.
  { intros v Hv. apply Hk0, list_elem_of_In, in_map_iff.
    exists (k0, v). split; [done | by apply list_elem_of_In]. }
  apply elem_of_cons in H1 as [H1|H1]; apply elem_of_cons in H2 as [H2|H2].
  - congruence.
  - injection H1 as -> ->. by destruct (Hfresh v2).
  - injection H2 as -> ->. by destruct (Hfresh v1).
  - by apply IH.
Qed.

(** *** The order on strings *)

Lemma string_leb_iff (s1 s2 : string) :
  String.leb s1 s2 = true <-> s1 = s2 \/ String_as_OT.lt s1 s2.
Proof.
  unfold String.leb.
  destruct (String.compare s1 s2) eqn:Hc.
  - apply String_as_OT.cmp_eq in Hc. naive_solver.
  - apply String_as_OT.cmp_lt in Hc. naive_solver.
  - split; [done|]. intros [->|Hlt].
    + assert (String.compare s2 s2 = Eq) as Heq
        by (by apply String_as_OT.cmp_eq).
      congruence.
    + apply String_as_OT.cmp_lt in Hlt.
      unfold String_as_OT.cmp in Hlt. congruence.
Qed.

Lemma string_leb_trans (s1 s2 s3 : string) :
  String.leb s1 s2 = true -> String.leb s2 s3 = true ->
  String.leb s1 s3 = true.
Proof.
  rewrite !string_leb_iff. intros [->|H12] [->|H23]; eauto.
  right. eapply String_as_OT.lt_trans; eauto.
Qed.

#[local] Instance item_le_trans : Transitive (@item_le V).
Proof. intros x y z. apply string_leb_trans. Qed.

Lemma item_le_total (x y : string * V) : item_le x y \/ item_le y x.
Proof. apply String.leb_total. Qed.

(** *** [sorted(d.items())] *)

Lemma insert_sorted_perm (x : string * V) l : insert_sorted x l ≡ₚ x :: l.
Proof.
  induction l as [|y l IH]; simpl; [done|].
  destruct (String.leb x.1 y.1); [done|].
  rewrite IH. apply Permutation_swap.
Qed.

Lemma sorted_items_perm d : sorted_items d ≡ₚ d.
Proof.
  induction d as [|x d IH]; simpl; [done|].
  by rewrite insert_sorted_perm, IH.
Qed.

Lemma insert_sorted_Sorted (x : string * V) l :
  Sorted item_le l -> Sorted item_le (insert_sorted x l).
Proof.
  induction 1 as [|y l Hl IH Hy]; simpl.
  - by repeat constructor.
  - destruct (String.leb x.1 y.1) eqn:Hxy.
    + by repeat constructor.
    + assert (item_le y x) as Hyx.
      { destruct (item_le_total x y) as [H|H]; [|done].
        unfold item_le in H. congruence. }
      constructor; [done|].
      destruct Hy as [|z l Hyz]; simpl in *; [by constructor|].
      destruct (String.leb x.1 z.1); by constructor.
Qed.

Lemma sorted_items_Sorted d : Sorted item_le (sorted_items d).
Proof.
  induction d as [|x d IH]; simpl; [constructor|].
  by apply insert_sorted_Sorted.
Qed.

(** The sorted items of a dictionary do not depend on the order in which
    its keys were inserted. *)
Lemma sorted_items_order_independent d d' :
  wf d -> d ≡ₚ d' -> sorted_items d = sorted_items d'.
Proof.
  intros Hwf Hperm.
  apply (Sorted_unique_strong item_le);
    [|apply sorted_items_Sorted..|by rewrite !sorted_items_perm].
  intros [k1 v1] [k2 v2] H1 H2 Hle1 Hle2.
  rewrite sorted_items_perm in H1. rewrite sorted_items_perm, <- Hperm in H2.
  assert (k1 = k2) as <-
    by (apply String.leb_antisym; [apply Hle1 | apply Hle2]).
  f_equal. eapply wf_value_unique; eauto.
Qed.

Lemma contains_perm k d d' : d ≡ₚ d' -> contains k d = contains k d'.
Proof.
  intros Hperm.
  assert (keys d ≡ₚ keys d') as Hkeys by (unfold keys; by rewrite Hperm).
  destruct (contains k d') eqn:H'.
  - apply contains_keys. rewrite Hkeys. by apply contains_keys.
  - apply contains_false_keys. rewrite Hkeys. by apply contains_false_keys.
Qed.

End dict_facts.

(** ** Facts about validation and cache keys *)

Lemma check_required_cases fields kw :
  check_required fields kw = Return true \/
  exists field, field ∈ fields /\ contains field kw = false /\
    check_required fields kw = Raise (missing_field field).
Proof.
  induction fields as [|f fields IH]; simpl; [by left|].
  destruct (contains f kw) eqn:Hf.
  - destruct IH as [IH|(field & Hin & Hmiss & IH)]; [by left|].
    right. exists field. split_and!; [by right | done | done].
  - right. exists f. split_and!; [by left | done | done].
Qed.

Lemma check_required_complete fields kw field :
  field ∈ fields -> contains field kw = false ->
  check_required fields kw <> Return true.
Proof.
  induction fields as [|f fields IH]; simpl.
  { by intros ?%elem_of_nil. }
  intros [->|Hin]%elem_of_cons Hmiss.
  - by rewrite Hmiss.
  - destruct (contains f kw); [by apply IH | done].
Qed.

Lemma validate_input_perm tool kw kw' :
  kw ≡ₚ kw' -> validate_input tool kw = validate_input tool kw'.
Proof.
  intros Hperm. unfold validate_input.
  induction (required_fields tool) as [|f fields IH]; simpl; [done|].
  by rewrite (contains_perm f kw kw'), IH.
Qed.

Lemma get_cache_key_perm tool kw kw' :
  wf kw -> kw ≡ₚ kw' -> get_cache_key tool kw = get_cache_key tool kw'.
Proof.
  intros Hwf Hperm. unfold get_cache_key, cache_data.
  by rewrite (sorted_items_order_independent kw kw').
Qed.

(** ** The exceptions of [json.dumps] *)

Lemma sequence_results_raises {A} (Q : exn -> Prop) (l : list (result A)) :
  Forall (raises_only Q) l -> raises_only Q (sequence_results l).
Proof.
  induction 1 as [|x l Hx _ IH]; intros e; simpl; [done|].
  destruct x as [a|e']; simpl; [|by intros [= <-]; apply Hx].
  destruct (sequence_results l) as [l'|e']; simpl; [done|].
  intros [= <-]. by apply IH.
Qed.

(** [json.dumps] raises nothing but [TypeError]. *)
Lemma dumps_raises_TypeError (v : pyval) :
  raises_only (fun e => exn_class e = TypeError) (Json.dumps v).
Proof.
  induction v as [| | | |l IH|l IH|d IH|type_name] using pyval_nested_ind;
    intros e; simpl; try done.
  - destruct (sequence_results (List.map Json.dumps l)) as [c|e'] eqn:Hs;
      simpl; [done|].
    intros [= <-].
    refine (sequence_results_raises (fun e => exn_class e = TypeError) _ _ _ Hs).
    clear Hs. induction IH; simpl; constructor; auto.
  - destruct (sequence_results (List.map Json.dumps l)) as [c|e'] eqn:Hs;
      simpl; [done|].
    intros [= <-].
    refine (sequence_results_raises (fun e => exn_class e = TypeError) _ _ _ Hs).
    clear Hs. induction IH; simpl; constructor; auto.
  - match goal with
    | |- bind_result (sequence_results ?l) _ = _ -> _ =>
        destruct (sequence_results l) as [c|e'] eqn:Hs
    end; simpl; [done|].
    intros [= <-].
    refine (sequence_results_raises (fun e => exn_class e = TypeError) _ _ _ Hs).
    clear Hs. apply Forall_forall. intros x Hx.
    apply list_elem_of_In, in_map_iff in Hx as [kv [<- Hkv]].
    apply list_elem_of_In in Hkv. rewrite sorted_items_perm in Hkv.
    apply list_elem_of_In, in_map_iff in Hkv as [[k v] [<- Hin]].
    apply list_elem_of_In in Hin.
    rewrite Forall_forall in IH. specialize (IH _ Hin). simpl in IH.
    intros e1. unfold Json.member. simpl.
    destruct (Json.dumps v) as [s|e0]; simpl; [done|].
    intros [= <-]. by apply IH.
  - by intros [= <-].
Qed.

Lemma get_cache_key_raises_TypeError tool kw e :
  get_cache_key tool kw = Raise e -> exn_class e = TypeError.
Proof.
  unfold get_cache_key.
  destruct (Json.dumps (cache_data tool kw)) as [s|e'] eqn:Hd; simpl; [done|].
  intros [= <-]. by eapply dumps_raises_TypeError.
Qed.

(** ** Facts about the steps of [execute_tool] *)

Lemma cache_lookup_state tool kw r x r' :
  cache_lookup tool kw r = (x, r') -> r' = r.
Proof.
  unfold cache_lookup, bind, lift, read, ret.
  destruct (cache_enabled (metadata tool)); [|congruence].
  destruct (get_cache_key tool kw); congruence.
Qed.

(** The look-up answers without raising exactly when the tool is not cached
    or the key of the arguments can be derived. *)
Lemma cache_lookup_returns tool kw r hit :
  cache_lookup tool kw r = (Return hit, r) <->
  (cache_enabled (metadata tool) = false /\ hit = None) \/
  (cache_enabled (metadata tool) = true /\
   exists cache_key, get_cache_key tool kw = Return cache_key /\
                     _cache r !! cache_key = hit).
Proof.
  unfold cache_lookup, bind, lift, read, ret.
  destruct (cache_enabled (metadata tool)).
  - destruct (get_cache_key tool kw) as [k|e]; split.
    + intros [= <-]. right. eauto.
    + intros [[? _]|[_ (k' & [= <-] & <-)]]; done.
    + done.
    + intros [[? _]|[_ (k' & ? & _)]]; done.
  - split; [intros [= <-]; by left | intros [[_ ->]|[? _]]; done].
Qed.

Lemma cache_store_enabled tool kw value cache_key r :
  cache_enabled (metadata tool) = true ->
  get_cache_key tool kw = Return cache_key ->
  cache_store tool kw value r =
    (Return tt, with_cache (<[cache_key := value]> (_cache r)) r).
Proof.
  intros Hc Hk. unfold cache_store, bind, lift, update. by rewrite Hc, Hk.
Qed.

Lemma cache_store_disabled tool kw value r :
  cache_enabled (metadata tool) = false ->
  cache_store tool kw value r = (Return tt, r).
Proof. intros Hc. unfold cache_store, ret. by rewrite Hc. Qed.

Lemma execute_tool_not_found tool_name kw r :
  get_tool tool_name r = None ->
  execute_tool tool_name kw r = (Raise (not_found tool_name), r).
Proof.
  intros Hnone. unfold execute_tool, bind, read, raise. by rewrite Hnone.
Qed.

Section execute_tool_facts.
Variables (tool_name : string) (tool : BaseTool) (kw : kwargs)
          (r : ToolRegistry).
Hypothesis registered : get_tool tool_name r = Some tool.

(** The registry once the handler has been called. *)
Let r1 : ToolRegistry := called (name (metadata tool), kw) r.
Let coro : run := execute tool kw (history r).

Lemma execute_tool_invalid e :
  validate_input tool kw = Raise e ->
  execute_tool tool_name kw r = (Raise e, r).
Proof.
  intros Hv. unfold execute_tool, bind, read, lift.
  by rewrite registered, Hv.
Qed.

Lemma execute_tool_key_error e :
  validate_input tool kw = Return true ->
  cache_lookup tool kw r = (Raise e, r) ->
  execute_tool tool_name kw r = (Raise e, r).
Proof.
  intros Hv Hl. unfold execute_tool, bind, read, lift.
  by rewrite registered, Hv, Hl.
Qed.

Lemma execute_tool_hit cached :
  validate_input tool kw = Return true ->
  cache_lookup tool kw r = (Return (Some cached), r) ->
  execute_tool tool_name kw r =
    (Return cached,
     log DEBUG ("Cache hit for tool '" ++ tool_name ++ "'") r).
Proof.
  intros Hv Hl. unfold execute_tool, bind, read, lift.
  by rewrite registered, Hv, Hl.
Qed.

Section miss.
Hypothesis valid : validate_input tool kw = Return true.
Hypothesis miss : cache_lookup tool kw r = (Return None, r).

Lemma execute_tool_returns_uncached value :
  cache_enabled (metadata tool) = false ->
  await_handler tool coro = Return value ->
  execute_tool tool_name kw r = (Return value, r1).
Proof.
  intros Hc Ha. unfold execute_tool, bind, read, lift.
  rewrite registered, valid, miss.
  unfold try_except, call_execute. fold coro r1. rewrite Ha.
  by rewrite cache_store_disabled.
Qed.

(** The value goes into the cache under the key of the arguments as the
    handler left them. *)
Lemma execute_tool_returns_cached value cache_key :
  cache_enabled (metadata tool) = true ->
  await_handler tool coro = Return value ->
  get_cache_key tool (arguments coro) = Return cache_key ->
  execute_tool tool_name kw r =
    (Return value, with_cache (<[cache_key := value]> (_cache r)) r1).
Proof.
  intros Hc Ha Hk. unfold execute_tool, bind, read, lift.
  rewrite registered, valid, miss.
  unfold try_except, call_execute. fold coro r1. rewrite Ha.
  by rewrite (cache_store_enabled _ _ _ cache_key).
Qed.

(** When that key cannot be derived, the [TypeError] is raised inside the
    [try]: the value of the handler is lost. *)
Lemma execute_tool_store_failed value e :
  cache_enabled (metadata tool) = true ->
  await_handler tool coro = Return value ->
  get_cache_key tool (arguments coro) = Raise e ->
  execute_tool tool_name kw r =
    (Raise (execution_failed e),
     log ERROR ("Error executing tool '" ++ tool_name ++ "': "
                ++ exn_str e) r1).
Proof.
  intros Hc Ha Hk. unfold execute_tool, bind, read, lift.
  rewrite registered, valid, miss.
  unfold try_except, call_execute. fold coro r1. rewrite Ha.
  unfold cache_store, bind, lift. rewrite Hc, Hk.
  by rewrite (get_cache_key_raises_TypeError _ _ _ Hk).
Qed.

Lemma execute_tool_timed_out e :
  await_handler tool coro = Raise e ->
  exn_class e = AsyncioTimeoutError ->
  execute_tool tool_name kw r = (Raise (timed_out tool_name), r1).
Proof.
  intros Ha He. unfold execute_tool, bind, read, lift.
  rewrite registered, valid, miss.
  unfold try_except, call_execute. fold coro r1. by rewrite Ha, He.
Qed.

Lemma execute_tool_failed e :
  await_handler tool coro = Raise e ->
  exn_class e <> AsyncioTimeoutError ->
  execute_tool tool_name kw r =
    (Raise (execution_failed e),
     log ERROR ("Error executing tool '" ++ tool_name ++ "': "
                ++ exn_str e) r1).
Proof.
  intros Ha He. unfold execute_tool, bind, read, lift.
  rewrite registered, valid, miss.
  unfold try_except, call_execute. fold coro r1. rewrite Ha.
  unfold update, raise. by destruct (exn_class e).
Qed.

End miss.

End execute_tool_facts.

(** ** Registration *)

Lemma wf_init h : wf (_tools (init h)).
Proof. apply NoDup_nil_2. Qed.

Lemma tools_register tool r :
  _tools (register tool r) = set (name (metadata tool)) tool (_tools r).
Proof. unfold register. by destruct (contains _ (_tools r)). Qed.

Lemma wf_register tool r : wf (_tools r) -> wf (_tools (register tool r)).
Proof. rewrite tools_register. apply wf_set. Qed.

Lemma wf_unregister tool_name r :
  wf (_tools r) -> wf (_tools (unregister tool_name r)).
Proof.
  unfold unregister. destruct (contains _ (_tools r)); simpl; [|done].
  apply wf_del.
Qed.

(** Round trip: a registered tool is the one [get_tool] returns. *)
Lemma get_tool_register tool r :
  get_tool (name (metadata tool)) (register tool r) = Some tool.
Proof. unfold get_tool. rewrite tools_register. apply get_set_eq. Qed.

(** C8: registering two tools under one name leaves one entry under that
    name, the second tool, and [list_tools] returns the names it returned
    after the first registration alone, so as many. *)
Theorem C8_register_twice_last_wins (r : ToolRegistry) (t1 t2 : BaseTool) :
  wf (_tools r) ->
  name (metadata t1) = name (metadata t2) ->
  let n := name (metadata t2) in
  let r1 := register t1 r in
  let r2 := register t2 r1 in
  get_tool n r2 = Some t2 /\
  List.filter (fun kv => String.eqb n (fst kv)) (_tools r2) = [(n, t2)] /\
  list_tools r2 = list_tools r1 /\
  length (list_tools r2) = length (list_tools r1).
Proof.
  intros Hwf Hname n r1 r2.
  assert (get_tool n r2 = Some t2) as Hget by apply get_tool_register.
  assert (list_tools r2 = list_tools r1) as Hlist.
  { unfold list_tools, r2. rewrite tools_register.
    apply keys_set_present. fold n. unfold r1. rewrite tools_register.
    rewrite Hname. apply contains_set. }
  split_and!; [done| |done|by rewrite Hlist].
  apply entries_of_key; [|done].
  by do 2 apply wf_register.
Qed.

Lemma C8_register_twice_witness :
  wf (_tools (init [])) /\
  name (metadata (sleepy None)) = name (metadata (sleepy (Some 1%Q))) /\
  get_tool "sleepy" (register (sleepy (Some 1%Q)) (register (sleepy None) (init [])))
    = Some (sleepy (Some 1%Q)) /\
  length (list_tools
            (register (sleepy (Some 1%Q)) (register (sleepy None) (init []))))
    = 1%nat.
Proof.
  split; [apply wf_init|]. split; [reflexivity|].
  destruct (C8_register_twice_last_wins (init []) (sleepy None)
              (sleepy (Some 1%Q)) (wf_init []) eq_refl)
    as (Hget & _ & _ & Hlen).
  split; [exact Hget | exact Hlen].
Defined.

(** ** Invocation *)

(** C2: invoking a name that is not registered raises the [ToolError]
    whose message names it, the NotFound kind, and leaves the registry, the
    cache and everything else as they were. *)
Theorem C2_unregistered_name_not_found
  (tool_name : string) (kw : kwargs) (r : ToolRegistry) :
  get_tool tool_name r = None ->
  execute_tool tool_name kw r = (Raise (not_found tool_name), r) /\
  has_kind tool_name (not_found tool_name) NotFound /\
  exn_str (not_found tool_name) = "Tool '" ++ tool_name ++ "' not found".
Proof.
  intros Hnone. split_and!; [|constructor|done].
  by apply execute_tool_not_found.
Qed.

Lemma C2_ghost_witness :
  get_tool "ghost" (register echo (init [])) = None /\
  execute_tool "ghost" [("x", PInt 1)] (register echo (init []))
    = (Raise (Exn ToolError "Tool 'ghost' not found"),
       register echo (init [])).
Proof.
  split; [reflexivity|].
  exact (proj1 (C2_unregistered_name_not_found "ghost" [("x", PInt 1)]
                  (register echo (init [])) eq_refl)).
Defined.

(** C3: when the arguments lack a field the input schema requires,
    invoking a registered tool raises [ToolValidationError] naming a
    required field that is missing (the first one in the schema's order);
    nothing changes, in particular the handler is not called. *)
Theorem C3_missing_required_field
  (tool_name : string) (tool : BaseTool) (kw : kwargs) (r : ToolRegistry) :
  get_tool tool_name r = Some tool ->
  (exists field, field ∈ required_fields tool /\ contains field kw = false) ->
  exists field,
    field ∈ required_fields tool /\ contains field kw = false /\
    execute_tool tool_name kw r = (Raise (missing_field field), r) /\
    has_kind tool_name (missing_field field) ValidationError /\
    exn_str (missing_field field)
      = "Required field '" ++ field ++ "' is missing" /\
    history (snd (execute_tool tool_name kw r)) = history r.
Proof.
  intros Hreg (f & Hin & Hmiss).
  destruct (check_required_cases (required_fields tool) kw)
    as [Hok|(field & Hfield & Hnot & Hraise)].
  { by destruct (check_required_complete _ _ _ Hin Hmiss). }
  exists field.
  assert (execute_tool tool_name kw r = (Raise (missing_field field), r))
    as Hexec by (by apply execute_tool_invalid with tool).
  split_and!; [done|done|done|constructor|done|by rewrite Hexec].
Qed.

Lemma C3_need_query_witness :
  get_tool "need_query" (register need_query (init [])) = Some need_query /\
  (exists field, field ∈ required_fields need_query /\
                 contains (V:=pyval) field [] = false) /\
  execute_tool "need_query" [] (register need_query (init []))
    = (Raise (Exn ToolValidationError "Required field 'query' is missing"),
       register need_query (init [])).
Proof.
  assert (exists field, field ∈ required_fields need_query /\
                        contains (V:=pyval) field [] = false) as Hmiss.
  { exists "query". split; [left | reflexivity]. }
  split; [reflexivity|]. split; [exact Hmiss|].
  destruct (C3_missing_required_field "need_query" need_query []
              (register need_query (init [])) eq_refl Hmiss)
    as (field & Hin & _ & Hexec & _).
  apply list_elem_of_singleton in Hin. subst field. exact Hexec.
Defined.

(** ** Cache keys *)

(** C4: [get_cache_key] does not depend on the order in which the keys of
    the arguments were inserted: two dictionaries with the same items give
    the same key (or the same exception), whatever the tool's name and
    version. *)
Theorem C4_cache_key_order_independent (tool : BaseTool) (kw kw' : kwargs) :
  wf kw -> kw ≡ₚ kw' -> get_cache_key tool kw = get_cache_key tool kw'.
Proof. apply get_cache_key_perm. Qed.

Lemma C4_a1_b2_witness :
  wf [("a", PInt 1); ("b", PInt 2)] /\
  [("a", PInt 1); ("b", PInt 2)] ≡ₚ [("b", PInt 2); ("a", PInt 1)] /\
  get_cache_key tool_t [("a", PInt 1); ("b", PInt 2)]
    = get_cache_key tool_t [("b", PInt 2); ("a", PInt 1)].
Proof.
  assert (wf [("a", PInt 1); ("b", PInt 2)]) as Hwf.
  { unfold wf. simpl. apply (bool_decide_unpack _). reflexivity. }
  assert ([("a", PInt 1); ("b", PInt 2)] ≡ₚ [("b", PInt 2); ("a", PInt 1)])
    as Hperm by apply perm_swap.
  split; [exact Hwf|]. split; [exact Hperm|].
  exact (C4_cache_key_order_independent tool_t _ _ Hwf Hperm).
Defined.

(** The key Python derives for this call. *)
Example cache_key_a1_b2 :
  get_cache_key tool_t [("b", PInt 2); ("a", PInt 1)]
    = Return "75b04725108ff4a360f9b692e931a442".
Proof. vm_compute. reflexivity. Qed.

(** ** Successful invocations and the cache *)

Lemma validate_input_true tool kw b :
  validate_input tool kw = Return b -> b = true.
Proof.
  unfold validate_input.
  destruct (check_required_cases (required_fields tool) kw)
    as [->|(f & _ & _ & ->)]; congruence.
Qed.

Lemma tools_execute_tool tool_name kw r :
  _tools (snd (execute_tool tool_name kw r)) = _tools r.
Proof.
  unfold execute_tool, bind, read, lift, raise.
  destruct (get_tool tool_name r) as [tool|]; [|done].
  destruct (validate_input tool kw); [|done].
  destruct (cache_lookup tool kw r) as [[[c|]|e] r'] eqn:Hl;
    apply cache_lookup_state in Hl as ->; [done| |done].
  unfold try_except, call_execute.
  destruct (await_handler tool _) as [v|e]; simpl.
  - unfold cache_store, bind, lift, update, ret.
    destruct (cache_enabled (metadata tool)); simpl; [|done].
    destruct (get_cache_key tool _); simpl; [done|].
    by destruct (exn_class _).
  - by destruct (exn_class e).
Qed.

(** When the awaited handler raises, the invocation raises one of the two
    exceptions of the [except] clauses. *)
Lemma execute_tool_await_raises tool_name tool kw r e :
  get_tool tool_name r = Some tool ->
  validate_input tool kw = Return true ->
  cache_lookup tool kw r = (Return None, r) ->
  await_handler tool (execute tool kw (history r)) = Raise e ->
  exists e' r', execute_tool tool_name kw r = (Raise e', r') /\
    (e' = timed_out tool_name \/ e' = execution_failed e).
Proof.
  intros Hreg Hv Hmiss Ha.
  destruct (decide (exn_class e = AsyncioTimeoutError)) as [He|He].
  - eexists _, _. split; [by eapply execute_tool_timed_out | by left].
  - eexists _, _. split; [by eapply execute_tool_failed | by right].
Qed.

(** After an invocation of a cached tool has returned, the arguments were
    valid, and the value was in the cache under their key already or has
    been put there under the key of the arguments as the handler left
    them. *)
Lemma execute_tool_success tool_name tool kw r v r1 :
  get_tool tool_name r = Some tool ->
  cache_enabled (metadata tool) = true ->
  execute_tool tool_name kw r = (Return v, r1) ->
  validate_input tool kw = Return true /\
  exists cache_key,
    get_cache_key tool kw = Return cache_key /\
    ((_cache r !! cache_key = Some v /\ _cache r1 = _cache r) \/
     (_cache r !! cache_key = None /\
      exists stored,
        get_cache_key tool (arguments (execute tool kw (history r)))
          = Return stored /\
        _cache r1 = <[stored := v]> (_cache r))).
Proof.
  intros Hreg Hc Hexec.
  destruct (validate_input tool kw) as [b|e] eqn:Hv.
  2: { rewrite (execute_tool_invalid _ _ _ _ Hreg e Hv) in Hexec. done. }
  apply validate_input_true in Hv as Hb. subst b. split; [done|].
  destruct (get_cache_key tool kw) as [k|e] eqn:Hk.
  2: { assert (cache_lookup tool kw r = (Raise e, r)) as Hl.
       { unfold cache_lookup, bind, lift. by rewrite Hc, Hk. }
       rewrite (execute_tool_key_error _ _ _ _ Hreg e Hv Hl) in Hexec. done. }
  exists k. split; [done|].
  assert (cache_lookup tool kw r = (Return (_cache r !! k), r)) as Hl.
  { apply cache_lookup_returns. right. eauto. }
  destruct (_cache r !! k) as [c|] eqn:Hhit.
  - rewrite (execute_tool_hit _ _ _ _ Hreg c Hv Hl) in Hexec.
    injection Hexec as -> <-. by left.
  - right. split; [done|].
    destruct (await_handler tool (execute tool kw (history r)))
      as [value|e] eqn:Ha.
    + destruct (get_cache_key tool (arguments (execute tool kw (history r))))
        as [stored|e] eqn:Hs.
      * rewrite (execute_tool_returns_cached _ _ _ _ Hreg Hv Hl value stored
                   Hc Ha Hs) in Hexec.
        injection Hexec as -> <-. by exists stored.
      * by rewrite (execute_tool_store_failed _ _ _ _ Hreg Hv Hl value e
                      Hc Ha Hs) in Hexec.
    + destruct (execute_tool_await_raises _ _ _ _ _ Hreg Hv Hl Ha)
        as (e' & r' & He' & _).
      congruence.
Qed.

(** When the handler has left the arguments with the key they had, the cache
    holds the returned value under the key of the call. *)
Lemma execute_tool_success_kept tool_name tool kw r v r1 :
  get_tool tool_name r = Some tool ->
  cache_enabled (metadata tool) = true ->
  execute_tool tool_name kw r = (Return v, r1) ->
  get_cache_key tool (arguments (execute tool kw (history r)))
    = get_cache_key tool kw ->
  validate_input tool kw = Return true /\
  exists cache_key, get_cache_key tool kw = Return cache_key /\
                    _cache r1 !! cache_key = Some v.
Proof.
  intros Hreg Hc Hexec Hkept.
  destruct (execute_tool_success _ _ _ _ _ _ Hreg Hc Hexec)
    as (Hv & k & Hk & [[Hhit ->]|[_ (stored & Hs & ->)]]);
    (split; [done|]); exists k; (split; [done|]); [done|].
  rewrite Hkept, Hk in Hs. injection Hs as <-. apply lookup_insert_eq.
Qed.

(** C5, as amended: once an invocation of a cached tool has returned a
    value, and the handler has left the arguments with the key they had
    (as it does when it has not changed an argument in place), the next
    invocation with the same arguments, in whatever order their keys come,
    returns that value from the cache: the handler is not called, and the
    registry and the cache stay as they are (a debug line is logged). *)
Theorem C5_second_invocation_served_from_cache
  (tool_name : string) (tool : BaseTool) (kw kw' : kwargs)
  (r r1 : ToolRegistry) (v : pyval) :
  get_tool tool_name r = Some tool ->
  cache_enabled (metadata tool) = true ->
  execute_tool tool_name kw r = (Return v, r1) ->
  get_cache_key tool (arguments (execute tool kw (history r)))
    = get_cache_key tool kw ->
  wf kw -> kw ≡ₚ kw' ->
  exists r2,
    execute_tool tool_name kw' r1 = (Return v, r2) /\
    history r2 = history r1 /\
    _cache r2 = _cache r1 /\
    _tools r2 = _tools r1.
Proof.
  intros Hreg Hc Hexec Hkept Hwf Hperm.
  destruct (execute_tool_success_kept _ _ _ _ _ _ Hreg Hc Hexec Hkept)
    as (Hv & k & Hk & Hcached).
  assert (get_tool tool_name r1 = Some tool) as Hreg1.
  { unfold get_tool. replace r1 with (snd (execute_tool tool_name kw r))
      by (by rewrite Hexec).
    by rewrite tools_execute_tool. }
  rewrite (validate_input_perm tool kw kw' Hperm) in Hv.
  rewrite (get_cache_key_perm tool kw kw' Hwf Hperm) in Hk.
  assert (cache_lookup tool kw' r1 = (Return (Some v), r1)) as Hl.
  { apply cache_lookup_returns. right. eauto. }
  eexists. split; [by apply execute_tool_hit with tool|done].
Qed.

Lemma C5_counter_witness :
  get_tool "counter" (register counter (init [])) = Some counter /\
  cache_enabled (metadata counter) = true /\
  wf [("a", PInt 1); ("b", PInt 2)] /\
  [("a", PInt 1); ("b", PInt 2)] ≡ₚ [("b", PInt 2); ("a", PInt 1)] /\
  arguments (execute counter [("a", PInt 1); ("b", PInt 2)] [])
    = [("a", PInt 1); ("b", PInt 2)] /\
  exists r1 r2,
    execute_tool "counter" [("a", PInt 1); ("b", PInt 2)]
      (register counter (init [])) = (Return (PInt 0), r1) /\
    execute_tool "counter" [("b", PInt 2); ("a", PInt 1)] r1
      = (Return (PInt 0), r2) /\
    history r2 = history r1.
Proof.
  assert (wf [("a", PInt 1); ("b", PInt 2)]) as Hwf.
  { unfold wf. simpl. apply (bool_decide_unpack _). reflexivity. }
  assert ([("a", PInt 1); ("b", PInt 2)] ≡ₚ [("b", PInt 2); ("a", PInt 1)])
    as Hperm by apply perm_swap.
  split; [reflexivity|]. split; [reflexivity|].
  split; [exact Hwf|]. split; [exact Hperm|]. split; [reflexivity|].
  pose (r1 := snd (execute_tool "counter" [("a", PInt 1); ("b", PInt 2)]
                     (register counter (init [])))).
  assert (execute_tool "counter" [("a", PInt 1); ("b", PInt 2)]
            (register counter (init [])) = (Return (PInt 0), r1)) as Hfirst.
  { vm_compute. reflexivity. }
  destruct (C5_second_invocation_served_from_cache "counter" counter
              _ _ (register counter (init [])) r1 (PInt 0)
              eq_refl eq_refl Hfirst eq_refl Hwf Hperm)
    as (r2 & Hsecond & Hhist & _).
  exists r1, r2. split; [exact Hfirst|]. split; [exact Hsecond | exact Hhist].
Defined.

(** C5 as stated fails for a handler that changes an argument in place:
    the appender is called with an empty list, returns 0 and leaves the
    list with one element, so its value is stored under the key of that
    list; the same call again is a miss, runs the handler a second time
    and returns 1. *)
Lemma C5_mutated_argument_counterexample :
  let r := register appender (init []) in
  let kw := [("items", PList [])] in
  let r1 := snd (execute_tool "appender" kw r) in
  let r2 := snd (execute_tool "appender" kw r1) in
  get_tool "appender" r = Some appender /\
  cache_enabled (metadata appender) = true /\
  execute_tool "appender" kw r = (Return (PInt 0), r1) /\
  arguments (execute appender kw (history r)) = [("items", PList [PInt 0])] /\
  fst (cache_lookup appender kw r1) = Return None /\
  fst (cache_lookup appender [("items", PList [PInt 0])] r1)
    = Return (Some (PInt 0)) /\
  execute_tool "appender" kw r1 = (Return (PInt 1), r2) /\
  PInt 1 <> PInt 0 /\
  history r2 = (history r1 ++ [("appender", kw)])%list.
Proof.
  split_and!; try (vm_compute; reflexivity). discriminate.
Qed.



(** ** The ways an invocation fails *)

Lemma validate_input_raises tool kw e :
  validate_input tool kw = Raise e ->
  exists field, field ∈ required_fields tool /\ contains field kw = false /\
                e = missing_field field.
Proof.
  unfold validate_input.
  destruct (check_required_cases (required_fields tool) kw)
    as [->|(f & Hin & Hmiss & ->)]; [done|].
  intros [= <-]. eauto.
Qed.

Lemma execute_tool_raises tool_name kw r e r' :
  execute_tool tool_name kw r = (Raise e, r') -> failure tool_name kw r e.
Proof.
  intros Hexec. destruct (get_tool tool_name r) as [tool|] eqn:Hreg.
  2: { apply fails_not_found; [done|].
       rewrite (execute_tool_not_found _ kw _ Hreg) in Hexec. congruence. }
  destruct (validate_input tool kw) as [b|e'] eqn:Hv.
  2: { rewrite (execute_tool_invalid _ _ _ _ Hreg e' Hv) in Hexec.
       injection Hexec as <- <-.
       destruct (validate_input_raises _ _ _ Hv) as (f & _ & _ & ->).
       by eapply fails_validation. }
  apply validate_input_true in Hv as Hb. subst b.
  destruct (cache_lookup tool kw r) as [[hit|e'] r0] eqn:Hl;
    apply cache_lookup_state in Hl as Hr0; subst r0.
  2: { rewrite (execute_tool_key_error _ _ _ _ Hreg e' Hv Hl) in Hexec.
       injection Hexec as <- <-. unfold cache_lookup, bind, lift, ret in Hl.
       destruct (cache_enabled (metadata tool)) eqn:Hc; [|done].
       destruct (get_cache_key tool kw) eqn:Hk; [done|].
       injection Hl as ->. by eapply fails_cache_key. }
  destruct hit as [c|].
  { by rewrite (execute_tool_hit _ _ _ _ Hreg c Hv Hl) in Hexec. }
  destruct (await_handler tool (execute tool kw (history r)))
    as [value|e0] eqn:Ha.
  { destruct (cache_enabled (metadata tool)) eqn:Hc.
    2: { by rewrite (execute_tool_returns_uncached _ _ _ _ Hreg Hv Hl value
                       Hc Ha) in Hexec. }
    destruct (get_cache_key tool (arguments (execute tool kw (history r))))
      as [k|e0] eqn:Hk.
    - by rewrite (execute_tool_returns_cached _ _ _ _ Hreg Hv Hl value k
                    Hc Ha Hk) in Hexec.
    - rewrite (execute_tool_store_failed _ _ _ _ Hreg Hv Hl value e0
                 Hc Ha Hk) in Hexec.
      injection Hexec as <- <-. by eapply fails_store. }
  destruct (decide (exn_class e0 = AsyncioTimeoutError)) as [He|He].
  - rewrite (execute_tool_timed_out _ _ _ _ Hreg Hv Hl e0 Ha He) in Hexec.
    injection Hexec as <- <-. by eapply fails_timeout.
  - rewrite (execute_tool_failed _ _ _ _ Hreg Hv Hl e0 Ha He) in Hexec.
    injection Hexec as <- <-. by eapply fails_execution.
Qed.

(** Only the derivation of the cache key, before the [try], lets an
    exception out that has none of the four kinds. *)
Lemma failure_has_kind_or_cache_key tool_name kw r e r' :
  execute_tool tool_name kw r = (Raise e, r') ->
  (exists k, has_kind tool_name e k) \/
  (exists tool, get_tool tool_name r = Some tool /\
                cache_enabled (metadata tool) = true /\
                get_cache_key tool kw = Raise e /\
                exn_class e = TypeError).
Proof.
  intros Hexec. destruct (execute_tool_raises _ _ _ _ _ Hexec)
    as [_ ->|tool field _ _ ->|tool Hreg _ Hc Hk|tool e0 _ _ _ _ _ ->
       |tool e0 _ _ _ _ _ ->|tool value e0 _ _ _ _ _ _ ->].
  - left. eexists. constructor.
  - left. eexists. constructor.
  - right. exists tool. split_and!; try done.
    by eapply get_cache_key_raises_TypeError.
  - left. eexists. constructor.
  - left. eexists. constructor.
  - left. eexists. constructor.
Qed.

(** C1: a cached tool called with an argument json cannot encode. The
    [TypeError] of [get_cache_key], raised before the [try], leaves
    [execute_tool] as it is: it has none of the four kinds. *)
Theorem C1_cache_key_fault_escapes :
  execute_tool "echo" [("x", PObject "set")] (register echo (init []))
    = (Raise (Exn TypeError "Object of type set is not JSON serializable"),
       register echo (init [])) /\
  forall k : kind,
    ~ has_kind "echo"
        (Exn TypeError "Object of type set is not JSON serializable") k.
Proof.
  split; [vm_compute; reflexivity|].
  intros k Hk. inversion Hk.
Qed.

(** ** Time-outs *)

Lemma truthy_nonzero (t : Q) : ~ (t == 0)%Q -> truthy (Some t) = Some t.
Proof.
  intros Hne. simpl. destruct (Qeq_bool t 0) eqn:Hz; [|done].
  by apply Qeq_bool_iff in Hz.
Qed.

Lemma truthy_zero (t : Q) : (t == 0)%Q -> truthy (Some t) = None.
Proof. intros Hz. simpl. apply Qeq_bool_iff in Hz. by rewrite Hz. Qed.


(** A coroutine that the cancellation does not stop is awaited to its end
    by a positive time-out. *)
Lemma wait_for_unstoppable (coro : run) (t : Q) :
  (0 < t)%Q -> yields coro t = false -> wait_for coro t = finish coro.
Proof.
  intros Hpos Hy. unfold wait_for. rewrite Hy.
  destruct (Qle_bool t 0) eqn:Hle.
  - apply Qle_bool_iff in Hle. by apply Qle_not_lt in Hle.
  - by destruct (Qle_bool (elapsed coro) t).
Qed.

(** What [wait_for] raises beside the time-out is what the handler raised. *)
Lemma await_handler_fault tool coro e :
  await_handler tool coro = Raise e ->
  exn_class e <> AsyncioTimeoutError ->
  finish coro = Raise e.
Proof.
  unfold await_handler, wait_for.
  destruct (truthy (timeout (metadata tool))) as [t|]; [|done].
  destruct (Qle_bool t 0); [by intros [= <-]|].
  destruct (Qle_bool (elapsed coro) t); [done|].
  destruct (yields coro t); [by intros [= <-] | done].
Qed.




(** C10, as amended: when the time-out of a registered tool is unset or
    zero, awaiting the handler yields what the handler does, however long
    it takes; the invocation raises [ToolTimeoutError] only when the handler
    itself raises [asyncio.TimeoutError]. *)
Theorem C10_falsy_timeout_places_no_bound
  (tool_name : string) (tool : BaseTool) (kw : kwargs) (r : ToolRegistry) :
  get_tool tool_name r = Some tool ->
  (timeout (metadata tool) = None \/
   exists t, timeout (metadata tool) = Some t /\ (t == 0)%Q) ->
  (forall coro, await_handler tool coro = finish coro) /\
  (forall e r',
     execute_tool tool_name kw r = (Raise e, r') ->
     exn_class e = ToolTimeoutError ->
     exists e0, finish (execute tool kw (history r)) = Raise e0 /\
                exn_class e0 = AsyncioTimeoutError).
Proof.
  intros Hreg Hfalsy.
  assert (forall coro, await_handler tool coro = finish coro) as Hawait.
  { intros coro. unfold await_handler.
    destruct Hfalsy as [->|(t & -> & Hz)]; [done|].
    by rewrite truthy_zero. }
  split; [done|]. intros e r' Hexec Hclass.
  destruct (execute_tool_raises _ _ _ _ _ Hexec)
    as [_ ->|tool' field _ _ ->|tool' _ _ _ Hk|tool' e0 Hreg' _ _ Ha He _
       |tool' e0 _ _ _ _ _ ->|tool' value e0 _ _ _ _ _ _ ->]; try done.
  - apply get_cache_key_raises_TypeError in Hk. congruence.
  - assert (tool' = tool) as -> by congruence.
    rewrite Hawait in Ha. eauto.
Qed.

Lemma C10_sleepy_witness :
  get_tool "sleepy" (register (sleepy (Some 0%Q)) (init []))
    = Some (sleepy (Some 0%Q)) /\
  (exists t, timeout (metadata (sleepy (Some 0%Q))) = Some t /\ (t == 0)%Q) /\
  await_handler (sleepy (Some 0%Q)) (execute (sleepy (Some 0%Q)) [] [])
    = Return (PStr "late").
Proof.
  assert (exists t, timeout (metadata (sleepy (Some 0%Q))) = Some t /\
                    (t == 0)%Q) as Hz.
  { exists 0%Q. split; reflexivity. }
  split; [reflexivity|]. split; [exact Hz|].
  destruct (C10_falsy_timeout_places_no_bound "sleepy" (sleepy (Some 0%Q)) []
              (register (sleepy (Some 0%Q)) (init [])) eq_refl (or_intror Hz))
    as [Hawait _].
  exact (Hawait (execute (sleepy (Some 0%Q)) [] [])).
Defined.

(** C10 as stated fails when the handler itself raises
    [asyncio.TimeoutError]: with no time-out set, the invocation raises
    [ToolTimeoutError]. *)
Lemma C10_handler_timeout_counterexample :
  let tool := failing (Exn AsyncioTimeoutError "") in
  let r := register tool (init []) in
  get_tool "failing" r = Some tool /\
  timeout (metadata tool) = None /\
  fst (execute_tool "failing" [] r) = Raise (timed_out "failing") /\
  exn_class (timed_out "failing") = ToolTimeoutError /\
  has_kind "failing" (timed_out "failing") TimeoutError.
Proof.
  split_and!; try (vm_compute; reflexivity). constructor.
Qed.

(** ** Handler failures *)

(** C7: when the handler of a registered tool, awaited on a cache miss with
    valid arguments, raises an exception other than [asyncio.TimeoutError],
    the invocation raises [ToolError] with the message
    ["Tool execution failed: "] followed by the [str()] of that exception,
    whatever its class; the cache is left as it was. *)
Theorem C7_handler_fault_becomes_execution_error
  (tool_name : string) (tool : BaseTool) (kw : kwargs) (r : ToolRegistry)
  (e : exn) :
  get_tool tool_name r = Some tool ->
  validate_input tool kw = Return true ->
  cache_lookup tool kw r = (Return None, r) ->
  await_handler tool (execute tool kw (history r)) = Raise e ->
  exn_class e <> AsyncioTimeoutError ->
  exists r',
    execute_tool tool_name kw r = (Raise (execution_failed e), r') /\
    finish (execute tool kw (history r)) = Raise e /\
    has_kind tool_name (execution_failed e) ExecutionError /\
    exn_class (execution_failed e) = ToolError /\
    exn_str (execution_failed e) = "Tool execution failed: " ++ exn_str e /\
    _cache r' = _cache r.
Proof.
  intros Hreg Hv Hmiss Ha He. eexists. split_and!.
  - by apply (execute_tool_failed _ _ _ _ Hreg Hv Hmiss _ Ha).
  - by eapply await_handler_fault.
  - constructor.
  - done.
  - done.
  - done.
Qed.

Lemma C7_value_error_witness :
  let tool := failing (Exn (OtherException "ValueError") "boom") in
  let r := register tool (init []) in
  get_tool "failing" r = Some tool /\
  validate_input tool [] = Return true /\
  cache_lookup tool [] r = (Return None, r) /\
  await_handler tool (execute tool [] (history r))
    = Raise (Exn (OtherException "ValueError") "boom") /\
  OtherException "ValueError" <> AsyncioTimeoutError /\
  fst (execute_tool "failing" [] r)
    = Raise (Exn ToolError "Tool execution failed: boom").
Proof.
  intros tool r.
  assert (OtherException "ValueError" <> AsyncioTimeoutError) as Hne
    by discriminate.
  split; [reflexivity|]. split; [reflexivity|]. split; [reflexivity|].
  split; [reflexivity|]. split; [exact Hne|].
  destruct (C7_handler_fault_becomes_execution_error "failing" tool [] r
              (Exn (OtherException "ValueError") "boom")
              eq_refl eq_refl eq_refl eq_refl Hne)
    as (r' & Hexec & _).
  rewrite Hexec. reflexivity.
Defined.

(** ** Test vectors *)

Example md5_empty : MD5.hexdigest "" = "d41d8cd98f00b204e9800998ecf8427e".
Proof. vm_compute. reflexivity. Qed.

Example md5_abc : MD5.hexdigest "abc" = "900150983cd24fb0d6963f7d28e17f72".
Proof. vm_compute. reflexivity. Qed.

Example md5_two_blocks :
  MD5.hexdigest "aaaaaaaaaaaaaaaaaaaaaaaaaaaaaaaaaaaaaaaaaaaaaaaaaaaaaaaa"
    = "3b0c8ac703f828b04c6c197006d17218".
Proof. vm_compute. reflexivity. Qed.

Example dumps_sorts_keys :
  Json.dumps (PDict [("n", PInt (-12));
                     ("l", PList [PBool true; PNone; PTuple [PInt 1; PInt 2]]);
                     ("d", PDict [("z", PInt 1); ("a", PDict [])])])
    = Return (
        "{" ++ String Json.dquote "d" ++ String Json.dquote ": {"
            ++ String Json.dquote "a" ++ String Json.dquote ": {}, "
            ++ String Json.dquote "z" ++ String Json.dquote ": 1}, "
            ++ String Json.dquote "l" ++ String Json.dquote
            ": [true, null, [1, 2]], "
            ++ String Json.dquote "n" ++ String Json.dquote ": -12}").
Proof. vm_compute. reflexivity. Qed.

(** The scenario of the echo tool: it returns its arguments. *)
Example echo_returns_arguments :
  fst (execute_tool "echo" [("x", PInt 1)] (register echo (init [])))
    = Return (PDict [("x", PInt 1)]).
Proof. vm_compute. reflexivity. Qed.

(** ** More on dictionaries: deletion *)

Section dict_deletion.
Context {V : Type}.
Implicit Types (d : dict V) (k : string) (v : V).

Lemma get_none_keys k d : get k d = None <-> k ∉ keys d.
Proof.
  rewrite <- contains_false_keys. unfold contains.
  destruct (get k d); naive_solver.
Qed.

Lemma get_del_ne k k' d : k <> k' -> get k' (del k d) = get k' d.
Proof.
  intros Hne. induction d as [|[k0 v0] d IH]; simpl; [done|].
  destruct (String.eqb_spec k k0) as [->|Hne0]; simpl.
  - by destruct (String.eqb_spec k' k0) as [->|?].
  - by rewrite IH.
Qed.

Lemma get_del_eq k d : wf d -> get k (del k d) = None.
Proof.
  unfold wf. induction d as [|[k0 v0] d IH]; simpl; [done|].
  intros [Hk0 Hd]%NoDup_cons.
  destruct (String.eqb_spec k k0) as [->|Hne]; simpl.
  - by apply get_none_keys.
  - destruct (String.eqb_spec k k0); [done | by apply IH].
Qed.

Lemma del_absent k d : get k d = None -> del k d = d.
Proof.
  induction d as [|[k0 v0] d IH]; simpl; [done|].
  destruct (String.eqb_spec k k0) as [->|Hne]; [done|].
  intros H. by rewrite IH.
Qed.

Lemma del_set_absent k v d : get k d = None -> del k (set k v d) = d.
Proof.
  induction d as [|[k0 v0] d IH]; simpl.
  - by rewrite String.eqb_refl.
  - destruct (String.eqb_spec k k0) as [->|Hne]; [done|]. simpl.
    destruct (String.eqb_spec k k0); [done|].
    intros H. by rewrite IH.
Qed.

Lemma get_some_elem k v d : get k d = Some v -> (k, v) ∈ d.
Proof.
  induction d as [|[k0 v0] d IH]; simpl; [done|].
  destruct (String.eqb_spec k k0) as [->|Hne].
  - intros [= ->]. left.
  - intros H. right. by apply IH.
Qed.

End dict_deletion.

(** ** Validation looks at the keys only *)

Lemma check_required_accepts_iff fields kw :
  check_required fields kw = Return true <->
  forall field, field ∈ fields -> contains field kw = true.
Proof.
  induction fields as [|f fields IH]; simpl.
  - split; [by intros _ ? ?%elem_of_nil | done].
  - destruct (contains f kw) eqn:Hf.
    + rewrite IH. split.
      * intros H field [->|Hin]%elem_of_cons; auto.
      * intros H field Hin. apply H. by right.
    + split; [done|]. intros H. specialize (H f). rewrite Hf in H.
      discriminate H. left.
Qed.

(** X1: [validate_input] accepts the arguments exactly when every field the
    schema lists as required is one of their keys; a schema without a
    ["required"] entry accepts everything. *)
Theorem X1_validate_input_accepts_iff (tool : BaseTool) (kw : kwargs) :
  (validate_input tool kw = Return true <->
   forall field, field ∈ required_fields tool -> contains field kw = true) /\
  (required (input_schema (metadata tool)) = None ->
   validate_input tool kw = Return true).
Proof.
  split; [apply check_required_accepts_iff|].
  intros Hnone. unfold validate_input, required_fields. by rewrite Hnone.
Qed.

(** X2: validation checks neither values nor unknown keys: arguments that
    are accepted stay accepted whatever other keys are added and whatever
    values the keys are given. *)
Theorem X2_validate_input_ignores_extras
  (tool : BaseTool) (kw kw' : kwargs) :
  validate_input tool kw = Return true ->
  (forall k, contains k kw = true -> contains k kw' = true) ->
  validate_input tool kw' = Return true.
Proof.
  intros Hv Hsub. apply check_required_accepts_iff.
  intros field Hin. apply Hsub.
  by apply (proj1 (check_required_accepts_iff _ _) Hv).
Qed.

Lemma X2_need_query_witness :
  validate_input need_query [("query", PStr "dice")] = Return true /\
  validate_input need_query
    [("unknown", PObject "set"); ("query", PInt 7)] = Return true.
Proof.
  assert (validate_input need_query [("query", PStr "dice")] = Return true)
    as Hv by reflexivity.
  split; [exact Hv|].
  apply (X2_validate_input_ignores_extras need_query
           [("query", PStr "dice")] _ Hv).
  intros k Hk. apply contains_keys in Hk.
  apply list_elem_of_singleton in Hk. subst k. reflexivity.
Defined.

(** ** Registering and unregistering *)

Lemma tools_unregister tool_name r :
  _tools (unregister tool_name r) = del tool_name (_tools r).
Proof.
  unfold unregister, contains.
  destruct (get tool_name (_tools r)) eqn:Hget; simpl; [done|].
  by rewrite del_absent.
Qed.

(** X3: after [unregister] the name is gone from [get_tool] and from
    [list_tools]; every other name is found as before, and the cache keeps
    what it held. *)
Theorem X3_unregister_removes_only_that_name
  (tool_name : string) (r : ToolRegistry) :
  wf (_tools r) ->
  get_tool tool_name (unregister tool_name r) = None /\
  (tool_name ∉ list_tools (unregister tool_name r)) /\
  (forall other, other <> tool_name ->
     get_tool other (unregister tool_name r) = get_tool other r) /\
  _cache (unregister tool_name r) = _cache r.
Proof.
  intros Hwf. unfold get_tool, list_tools. rewrite tools_unregister.
  split_and!.
  - by apply get_del_eq.
  - by apply get_none_keys, get_del_eq.
  - intros other Hne. by apply get_del_ne.
  - unfold unregister. by destruct (contains _ _).
Qed.

Lemma X3_unregister_witness :
  wf (_tools (register echo (register counter (init [])))) /\
  get_tool "counter"
    (unregister "counter" (register echo (register counter (init []))))
    = None /\
  get_tool "echo"
    (unregister "counter" (register echo (register counter (init []))))
    = Some echo.
Proof.
  assert (wf (_tools (register echo (register counter (init []))))) as Hwf
    by (do 2 apply wf_register; apply wf_init).
  split; [exact Hwf|].
  destruct (X3_unregister_removes_only_that_name "counter" _ Hwf)
    as (Hgone & _ & Hother & _).
  split; [exact Hgone|]. rewrite Hother; [reflexivity | discriminate].
Defined.

(** X4: registering a tool under a name that is free and unregistering it
    again gives back the tools there were, in their order. *)
Theorem X4_register_unregister_round_trip
  (tool : BaseTool) (r : ToolRegistry) :
  get_tool (name (metadata tool)) r = None ->
  _tools (unregister (name (metadata tool)) (register tool r)) = _tools r /\
  list_tools (unregister (name (metadata tool)) (register tool r))
    = list_tools r.
Proof.
  intros Hfree. unfold list_tools.
  rewrite tools_unregister, tools_register.
  by rewrite del_set_absent.
Qed.

Lemma X4_round_trip_witness :
  get_tool (name (metadata echo)) (register counter (init [])) = None /\
  list_tools (unregister "echo" (register echo (register counter (init []))))
    = ["counter"].
Proof.
  split; [reflexivity|].
  exact (proj2 (X4_register_unregister_round_trip echo
                  (register counter (init [])) eq_refl)).
Defined.

(** X5: a tool registered under a name that is free goes to the end of
    [list_tools], is the one [get_tool] and [get_tool_metadata] return, and
    no other name is affected. *)
Theorem X5_register_new_name_appends (tool : BaseTool) (r : ToolRegistry) :
  get_tool (name (metadata tool)) r = None ->
  list_tools (register tool r)
    = (list_tools r ++ [name (metadata tool)])%list /\
  get_tool (name (metadata tool)) (register tool r) = Some tool /\
  get_tool_metadata (name (metadata tool)) (register tool r)
    = Some (metadata tool) /\
  (forall other, other <> name (metadata tool) ->
     get_tool other (register tool r) = get_tool other r).
Proof.
  intros Hfree. unfold get_tool_metadata.
  rewrite get_tool_register. unfold list_tools, get_tool.
  rewrite tools_register. split_and!; [|done|done|].
  - apply keys_set_absent. unfold contains. unfold get_tool in Hfree.
    by rewrite Hfree.
  - intros other Hne. by apply get_set_ne.
Qed.

Lemma X5_register_witness :
  get_tool (name (metadata echo)) (register counter (init [])) = None /\
  list_tools (register echo (register counter (init [])))
    = ["counter"; "echo"].
Proof.
  split; [reflexivity|].
  exact (proj1 (X5_register_new_name_appends echo
                  (register counter (init [])) eq_refl)).
Defined.

(** ** Every path through [execute_tool] *)

Lemma execute_tool_outcome tool_name kw r :
  outcome tool_name kw r (execute_tool tool_name kw r).
Proof.
  destruct (get_tool tool_name r) as [tool|] eqn:Hreg.
  2: { rewrite (execute_tool_not_found _ kw _ Hreg). by constructor. }
  destruct (validate_input tool kw) as [b|e] eqn:Hv.
  2: { rewrite (execute_tool_invalid _ _ _ _ Hreg e Hv).
       destruct (validate_input_raises _ _ _ Hv) as (f & _ & _ & ->).
       by eapply out_invalid. }
  apply validate_input_true in Hv as Hb. subst b.
  destruct (cache_enabled (metadata tool)) eqn:Hc.
  - destruct (get_cache_key tool kw) as [k|e] eqn:Hk.
    2: { assert (cache_lookup tool kw r = (Raise e, r)) as Hl.
         { unfold cache_lookup, bind, lift. by rewrite Hc, Hk. }
         rewrite (execute_tool_key_error _ _ _ _ Hreg e Hv Hl).
         by eapply out_key_error. }
    assert (cache_lookup tool kw r = (Return (_cache r !! k), r)) as Hl.
    { apply cache_lookup_returns. right. eauto. }
    destruct (_cache r !! k) as [c|] eqn:Hhit.
    { rewrite (execute_tool_hit _ _ _ _ Hreg c Hv Hl). by eapply out_hit. }
    destruct (await_handler tool (execute tool kw (history r)))
      as [value|e] eqn:Ha.
    + destruct (get_cache_key tool (arguments (execute tool kw (history r))))
        as [stored|e] eqn:Hs.
      * rewrite (execute_tool_returns_cached _ _ _ _ Hreg Hv Hl value stored
                   Hc Ha Hs).
        by eapply out_returns_cached.
      * rewrite (execute_tool_store_failed _ _ _ _ Hreg Hv Hl value e
                   Hc Ha Hs).
        by eapply out_store_failed.
    + destruct (decide (exn_class e = AsyncioTimeoutError)) as [He|He].
      * rewrite (execute_tool_timed_out _ _ _ _ Hreg Hv Hl e Ha He).
        by eapply out_timed_out.
      * rewrite (execute_tool_failed _ _ _ _ Hreg Hv Hl e Ha He).
        by eapply out_failed.
  - assert (cache_lookup tool kw r = (Return None, r)) as Hl.
    { apply cache_lookup_returns. by left. }
    destruct (await_handler tool (execute tool kw (history r)))
      as [value|e] eqn:Ha.
    + rewrite (execute_tool_returns_uncached _ _ _ _ Hreg Hv Hl value Hc Ha).
      by eapply out_returns_uncached.
    + destruct (decide (exn_class e = AsyncioTimeoutError)) as [He|He].
      * rewrite (execute_tool_timed_out _ _ _ _ Hreg Hv Hl e Ha He).
        by eapply out_timed_out.
      * rewrite (execute_tool_failed _ _ _ _ Hreg Hv Hl e Ha He).
        by eapply out_failed.
Qed.

(** ** Invariants of the registry *)

Lemma consistent_init h : consistent (init h).
Proof. split; [apply wf_init | done]. Qed.

Lemma consistent_register tool r :
  consistent r -> consistent (register tool r).
Proof.
  intros [Hwf Hnamed]. split; [by apply wf_register|].
  intros n t. rewrite tools_register.
  destruct (decide (name (metadata tool) = n)) as [<-|Hne].
  - rewrite get_set_eq. by intros [= <-].
  - rewrite get_set_ne by done. apply Hnamed.
Qed.

Lemma consistent_unregister tool_name r :
  consistent r -> consistent (unregister tool_name r).
Proof.
  intros [Hwf Hnamed]. split; [by apply wf_unregister|].
  intros n t. rewrite tools_unregister.
  destruct (decide (tool_name = n)) as [<-|Hne].
  - by rewrite get_del_eq.
  - rewrite get_del_ne by done. apply Hnamed.
Qed.

Lemma consistent_tools r r' :
  _tools r' = _tools r -> consistent r -> consistent r'.
Proof. unfold consistent. by intros ->. Qed.

Lemma consistent_perform r o : consistent r -> consistent (perform r o).
Proof.
  intros Hr. destruct o as [tool|tool_name|tool_name kw|]; simpl.
  - by apply consistent_register.
  - by apply consistent_unregister.
  - eapply consistent_tools; [apply tools_execute_tool | done].
  - by eapply consistent_tools.
Qed.

Lemma consistent_reachable h ops : consistent (foldl perform (init h) ops).
Proof.
  generalize (consistent_init h). generalize (init h).
  induction ops as [|o ops IH]; intros r Hr; simpl; [done|].
  by apply IH, consistent_perform.
Qed.

(** X6: whatever sequence of [register], [unregister], [execute_tool] and
    [clear_cache] a registry has gone through since it was created, no name
    is stored twice and every tool is stored under the name of its own
    metadata. *)
Theorem X6_registry_stays_consistent
  (h : list invocation) (ops : list operation) :
  let r := foldl perform (init h) ops in
  NoDup (list_tools r) /\
  forall tool_name tool,
    get_tool tool_name r = Some tool -> name (metadata tool) = tool_name.
Proof. exact (consistent_reachable h ops). Qed.

(** X7: [execute_tool] never changes which tools are registered, and it
    only adds to the log and to the handler calls made so far. *)
Theorem X7_execute_tool_frame
  (tool_name : string) (kw : kwargs) (r : ToolRegistry) :
  let r' := snd (execute_tool tool_name kw r) in
  _tools r' = _tools r /\
  logger r `prefix_of` logger r' /\
  history r `prefix_of` history r'.
Proof.
  simpl. destruct (execute_tool_outcome tool_name kw r); simpl;
    split_and!; try done; try (by apply prefix_app_r).
Qed.

(** X8: one invocation calls the handler at most once, whatever
    [retry_attempts] says: it calls it exactly once when the tool is found,
    the arguments are valid and the cache has no value for them, and not at
    all otherwise. *)
Theorem X8_handler_called_at_most_once
  (tool_name : string) (kw : kwargs) (r : ToolRegistry) :
  let r' := snd (execute_tool tool_name kw r) in
  (exists tool,
     get_tool tool_name r = Some tool /\
     validate_input tool kw = Return true /\
     cache_lookup tool kw r = (Return None, r) /\
     history r' = (history r ++ [(name (metadata tool), kw)])%list) \/
  ((forall tool,
      get_tool tool_name r = Some tool ->
      validate_input tool kw = Return true ->
      cache_lookup tool kw r <> (Return None, r)) /\
   history r' = history r).
Proof.
  simpl.
  destruct (execute_tool_outcome tool_name kw r)
    as [Hreg|tool f Hreg Hv|tool e Hreg Hv Hc Hk|tool k c Hreg Hv Hc Hk Hhit
       |tool v Hreg Hv Hc Ha|tool k v Hreg Hv Hc Hl Ha Hk
       |tool v e Hreg Hv Hc Hl Ha Hk
       |tool e Hreg Hv Hl Ha He|tool e Hreg Hv Hl Ha He]; simpl.
  - right. split; [congruence | done].
  - right. split; [|done]. intros t Ht Hvt. congruence.
  - right. split; [|done]. intros t Ht _ Hl.
    assert (t = tool) as -> by congruence.
    apply cache_lookup_returns in Hl as [[? _]|[_ (k & ? & _)]]; congruence.
  - right. split; [|done]. intros t Ht _ Hl.
    assert (t = tool) as -> by congruence.
    apply cache_lookup_returns in Hl as [[? _]|[_ (k' & ? & ?)]]; congruence.
  - left. exists tool. split_and!; try done.
    apply cache_lookup_returns. by left.
  - left. exists tool. by split_and!.
  - left. exists tool. by split_and!.
  - left. exists tool. by split_and!.
  - left. exists tool. by split_and!.
Qed.

(** X9: an invocation that raises, whatever it raises, leaves the cache as
    it was. *)
Theorem X9_failure_leaves_cache
  (tool_name : string) (kw : kwargs) (r r' : ToolRegistry) (e : exn) :
  execute_tool tool_name kw r = (Raise e, r') -> _cache r' = _cache r.
Proof.
  intros Hexec. pose proof (execute_tool_outcome tool_name kw r) as Hout.
  rewrite Hexec in Hout. by inversion Hout.
Qed.

Lemma X9_failure_witness :
  let r := register (failing (Exn (OtherException "ValueError") "boom"))
             (snd (execute_tool "echo" [] (register echo (init [])))) in
  let r' := snd (execute_tool "failing" [] r) in
  execute_tool "failing" [] r
    = (Raise (Exn ToolError "Tool execution failed: boom"), r') /\
  _cache r' = _cache r.
Proof.
  intros r r'.
  assert (execute_tool "failing" [] r
          = (Raise (Exn ToolError "Tool execution failed: boom"), r'))
    as Hexec by (vm_compute; reflexivity).
  split; [exact Hexec|].
  exact (X9_failure_leaves_cache "failing" [] r r' _ Hexec).
Defined.

(** An invocation whose handler leaves the arguments with the key they had
    adds to the cache at most. *)
Lemma cache_execute_tool tool_name kw r :
  (forall tool,
     get_tool tool_name r = Some tool ->
     get_cache_key tool (arguments (execute tool kw (history r)))
       = get_cache_key tool kw) ->
  _cache r ⊆ _cache (snd (execute_tool tool_name kw r)).
Proof.
  intros Hkept.
  destruct (execute_tool_outcome tool_name kw r)
    as [| | | | |tool k v Hreg Hv Hc Hl Ha Hk| | |]; simpl; try done.
  apply insert_subseteq. rewrite (Hkept tool Hreg) in Hk.
  apply cache_lookup_returns in Hl as [[? _]|[_ (k' & Hk' & Hmiss)]];
    congruence.
Qed.

(** X10: an invocation whose handler leaves the arguments with the key they
    had (as it does when it has not changed an argument in place) never
    removes or replaces a cached value: what the cache holds under a key
    before the invocation it holds afterwards. *)
Theorem X10_cache_only_grows
  (tool_name : string) (tool : BaseTool) (kw : kwargs) (r : ToolRegistry) :
  get_tool tool_name r = Some tool ->
  get_cache_key tool (arguments (execute tool kw (history r)))
    = get_cache_key tool kw ->
  _cache r ⊆ _cache (snd (execute_tool tool_name kw r)).
Proof.
  intros Hreg Hkept. apply cache_execute_tool. intros tool' Hreg'.
  assert (tool' = tool) as -> by congruence. done.
Qed.

Lemma X10_counter_witness :
  let r :=
    register counter (snd (execute_tool "echo" [] (register echo (init []))))
  in
  get_tool "counter" r = Some counter /\
  arguments (execute counter [] (history r)) = [] /\
  _cache r ⊆ _cache (snd (execute_tool "counter" [] r)).
Proof.
  intros r. split; [reflexivity|]. split; [reflexivity|].
  exact (X10_cache_only_grows "counter" counter [] r eq_refl eq_refl).
Defined.

(** Without that, a cached value can be replaced: the appender, called
    with an empty list twice, stores 0 and then 1 under the key of the list
    it has left. *)
Example appender_replaces_cached_value :
  let r := register appender (init []) in
  let kw := [("items", PList [])] in
  let r1 := snd (execute_tool "appender" kw r) in
  let r2 := snd (execute_tool "appender" kw r1) in
  fst (cache_lookup appender [("items", PList [PInt 0])] r1)
    = Return (Some (PInt 0)) /\
  fst (cache_lookup appender [("items", PList [PInt 0])] r2)
    = Return (Some (PInt 1)).
Proof. split; vm_compute; reflexivity. Qed.

(** X11: a tool whose [cache_enabled] is false never reads or writes the
    cache: with valid arguments every invocation calls the handler, and the
    cache stays as it was. *)
Theorem X11_uncached_tool_always_runs
  (tool_name : string) (tool : BaseTool) (kw : kwargs) (r : ToolRegistry) :
  get_tool tool_name r = Some tool ->
  cache_enabled (metadata tool) = false ->
  validate_input tool kw = Return true ->
  let r' := snd (execute_tool tool_name kw r) in
  history r' = (history r ++ [(name (metadata tool), kw)])%list /\
  _cache r' = _cache r.
Proof.
  intros Hreg Hc Hv. simpl.
  destruct (execute_tool_outcome tool_name kw r)
    as [Hreg'|tool' f Hreg' Hv'|tool' e Hreg' _ Hc' _
       |tool' k c Hreg' _ Hc' _ _|tool' v Hreg' _ _ _
       |tool' k v Hreg' _ Hc' _ _ _|tool' v e Hreg' _ Hc' _ _ _
       |tool' e Hreg' _ _ _ _|tool' e Hreg' _ _ _ _];
    try assert (tool' = tool) as -> by congruence; simpl;
    try congruence; by split.
Qed.

Lemma X11_uncached_counter_witness :
  let r := register uncached_counter (init []) in
  let r1 := snd (execute_tool "counter" [] r) in
  get_tool "counter" r1 = Some uncached_counter /\
  cache_enabled (metadata uncached_counter) = false /\
  validate_input uncached_counter [] = Return true /\
  fst (execute_tool "counter" [] r) = Return (PInt 0) /\
  fst (execute_tool "counter" [] r1) = Return (PInt 1) /\
  history (snd (execute_tool "counter" [] r1))
    = [("counter", []); ("counter", [])] /\
  _cache (snd (execute_tool "counter" [] r1)) = _cache r1.
Proof.
  intros r r1.
  split; [reflexivity|]. split; [reflexivity|]. split; [reflexivity|].
  split; [reflexivity|]. split; [reflexivity|].
  exact (X11_uncached_tool_always_runs "counter" uncached_counter [] r1
           eq_refl eq_refl eq_refl).
Defined.

(** ** The cache outlives the tool *)

Lemma cache_register tool r : _cache (register tool r) = _cache r.
Proof. unfold register. by destruct (contains _ _). Qed.

Lemma history_register tool r : history (register tool r) = history r.
Proof. unfold register. by destruct (contains _ _). Qed.

(** The key is made of the tool's name, its version and the arguments. *)
Lemma get_cache_key_same_name_version t1 t2 kw :
  name (metadata t1) = name (metadata t2) ->
  version (metadata t1) = version (metadata t2) ->
  get_cache_key t1 kw = get_cache_key t2 kw.
Proof.
  intros Hn Hver. unfold get_cache_key, cache_data. by rewrite Hn, Hver.
Qed.

(** X12: registering another tool under the name and version of a tool
    whose result is cached does not touch the cache: when the old handler
    had left the arguments with the key they had, the next invocation with
    the same arguments returns the old tool's value, and the new handler is
    not called. *)
Theorem X12_replaced_tool_served_from_old_cache
  (tool_name : string) (t1 t2 : BaseTool) (kw : kwargs)
  (r r1 : ToolRegistry) (v : pyval) :
  get_tool tool_name r = Some t1 ->
  cache_enabled (metadata t1) = true ->
  execute_tool tool_name kw r = (Return v, r1) ->
  get_cache_key t1 (arguments (execute t1 kw (history r)))
    = get_cache_key t1 kw ->
  name (metadata t1) = tool_name ->
  name (metadata t2) = tool_name ->
  version (metadata t2) = version (metadata t1) ->
  cache_enabled (metadata t2) = true ->
  validate_input t2 kw = Return true ->
  exists r2,
    get_tool tool_name (register t2 r1) = Some t2 /\
    execute_tool tool_name kw (register t2 r1) = (Return v, r2) /\
    history r2 = history r1.
Proof.
  intros Hreg Hc Hexec Hkept Hn1 Hn2 Hver Hc2 Hv2.
  destruct (execute_tool_success_kept _ _ _ _ _ _ Hreg Hc Hexec Hkept)
    as (_ & k & Hk & Hcached).
  assert (get_tool tool_name (register t2 r1) = Some t2) as Hreg2.
  { rewrite <- Hn2. apply get_tool_register. }
  rewrite (get_cache_key_same_name_version t1 t2) in Hk by congruence.
  assert (cache_lookup t2 kw (register t2 r1)
          = (Return (Some v), register t2 r1)) as Hl.
  { apply cache_lookup_returns. right. split; [done|]. exists k.
    by rewrite cache_register. }
  eexists. split; [done|]. split.
  - by apply execute_tool_hit with t2.
  - simpl. apply history_register.
Qed.

Lemma X12_counter_replacement_witness :
  let r := register counter (init []) in
  let r1 := snd (execute_tool "counter" [] r) in
  get_tool "counter" r = Some counter /\
  execute_tool "counter" [] r = (Return (PInt 0), r1) /\
  validate_input counter_replacement [] = Return true /\
  get_tool "counter" (register counter_replacement r1)
    = Some counter_replacement /\
  fst (execute_tool "counter" [] (register counter_replacement r1))
    = Return (PInt 0).
Proof.
  intros r r1.
  assert (execute_tool "counter" [] r = (Return (PInt 0), r1)) as Hfirst
    by (vm_compute; reflexivity).
  split; [reflexivity|]. split; [exact Hfirst|]. split; [reflexivity|].
  destruct (X12_replaced_tool_served_from_old_cache "counter" counter
              counter_replacement [] r r1 (PInt 0)
              eq_refl eq_refl Hfirst eq_refl eq_refl eq_refl eq_refl eq_refl
              eq_refl)
    as (r2 & Hreg2 & Hexec & _).
  split; [exact Hreg2 | by rewrite Hexec].
Defined.

(** ** Which arguments have a cache key *)

Lemma sequence_results_returns {A} (l : list (result A)) :
  returns (sequence_results l) <-> Forall returns l.
Proof.
  induction l as [|x l IH]; simpl.
  - split; [constructor | by eexists].
  - rewrite Forall_cons, <- IH. destruct x as [a|e]; simpl.
    + destruct (sequence_results l) as [l'|e]; simpl.
      * split; [intros _; split; by eexists | by eexists].
      * split; [by intros [? ?] | by intros [_ [? ?]]].
    + split; [by intros [? ?] | by intros [[? ?] _]].
Qed.

Lemma bind_result_returns {A B} (x : result A) (f : A -> B) :
  returns (bind_result x (fun a => Return (f a))) <-> returns x.
Proof.
  destruct x as [a|e]; simpl; split; intros [? ?]; try done; by eexists.
Qed.

Lemma Forall_returns_map {A} (f : A -> result string) (Q : A -> Prop) l :
  Forall (fun x => returns (f x) <-> Q x) l ->
  Forall returns (List.map f l) <-> Forall Q l.
Proof.
  induction 1 as [|x l Hx _ IH]; simpl; [done|].
  by rewrite !Forall_cons, Hx, IH.
Qed.

Lemma forallb_Forall {A} (f : A -> bool) l :
  forallb f l = true <-> Forall (fun x => f x = true) l.
Proof.
  induction l as [|x l IH]; simpl; [done|].
  by rewrite andb_true_iff, Forall_cons, IH.
Qed.

(** [json.dumps] returns a string exactly for the values that hold nothing
    it cannot encode. *)
Lemma dumps_returns_iff (v : pyval) :
  returns (Json.dumps v) <-> encodable v = true.
Proof.
  induction v as [| | | |l IH|l IH|d IH|type_name] using pyval_nested_ind;
    simpl; try (split; [done | by eexists]).
  - rewrite bind_result_returns, sequence_results_returns, forallb_Forall.
    by apply Forall_returns_map.
  - rewrite bind_result_returns, sequence_results_returns, forallb_Forall.
    by apply Forall_returns_map.
  - rewrite bind_result_returns, sequence_results_returns, forallb_Forall.
    rewrite (Forall_returns_map Json.member
               (fun kv => returns (snd kv))).
    2: { apply Forall_forall. intros [k x] _. unfold Json.member. simpl.
         apply bind_result_returns. }
    rewrite sorted_items_perm.
    induction IH as [|[k v] d Hv _ IHd]; simpl; [done|].
    by rewrite !Forall_cons, IHd, Hv.
  - split; [by intros [? ?] | done].
Qed.

Lemma encodable_cache_data tool kw :
  encodable (cache_data tool kw)
  = forallb (fun kv => encodable (snd kv)) (sorted_items kw).
Proof.
  unfold cache_data. simpl. rewrite !andb_true_r.
  induction (sorted_items kw) as [|kv l IH]; simpl; [done|].
  by rewrite andb_true_r, IH.
Qed.

(** X13: the cache key of a call can be derived exactly when no argument
    holds a value [json.dumps] cannot encode (a set, bytes, an object), at
    whatever depth; the tool plays no part in that. *)
Theorem X13_cache_key_exists_iff_encodable (tool : BaseTool) (kw : kwargs) :
  returns (get_cache_key tool kw) <->
  forallb (fun kv => encodable (snd kv)) kw = true.
Proof.
  unfold get_cache_key.
  rewrite bind_result_returns, dumps_returns_iff, encodable_cache_data.
  rewrite !forallb_Forall. by rewrite sorted_items_perm.
Qed.

Lemma to_pyval_encodable (j : json) : encodable (to_pyval j) = true.
Proof.
  induction j as [| | | |l IH|d IH] using json_nested_ind; simpl; try done.
  - apply forallb_Forall. induction IH; simpl; by constructor.
  - apply forallb_Forall. induction IH; simpl; by constructor.
Qed.

Lemma kwargs_of_encodable (d : dict json) :
  forallb (fun kv => encodable (snd kv)) (kwargs_of d) = true.
Proof.
  apply forallb_Forall. unfold kwargs_of.
  induction d as [|[k j] d IH]; simpl; constructor; [|done].
  apply to_pyval_encodable.
Qed.

(** ** The server's answers *)

Lemma answer_exception_returns i e r :
  answer_exception i e r
  = (Return (error_response i (-32603)
               (if is_tool_error (exn_class e) then exn_str e
                else "Internal server error")), r).
Proof. unfold answer_exception, ret. by destruct (is_tool_error _). Qed.

(** The call both entry points make once the request has a name. *)
Lemma call_steps i tool_name tool_params r :
  (let* kw := lift (bind_kwargs tool_params) in
   let* value := execute_tool_named tool_name kw in
   ret (result_response i (Value value))) r
  = match bind_kwargs tool_params with
    | Raise e => (Raise e, r)
    | Return kw =>
        match execute_tool_named tool_name kw r with
        | (Return value, r') => (Return (result_response i (Value value)), r')
        | (Raise e, r') => (Raise e, r')
        end
    end.
Proof.
  unfold bind, lift, ret. destruct (bind_kwargs tool_params); [|done].
  by destruct (execute_tool_named _ _ _) as [[?|?] ?].
Qed.

Lemma first_clash_none (d : dict json) :
  first_clash d = None <->
  contains "self" d = false /\ contains "tool_name" d = false.
Proof.
  rewrite !contains_false_keys.
  induction d as [|[k j] d IH]; simpl.
  - split; [intros _; split; apply not_elem_of_nil | done].
  - rewrite !not_elem_of_cons.
    destruct (String.eqb_spec k "self") as [->|Hs]; simpl.
    { split; [done | by intros [[? _] _]]. }
    destruct (String.eqb_spec k "tool_name") as [->|Ht]; simpl.
    { split; [done | by intros [_ [? _]]]. }
    rewrite IH. split.
    + intros [? ?]. split_and!; try done; by intros <-.
    + by intros [[_ ?] [_ ?]].
Qed.

Lemma bind_kwargs_clash (d : dict json) :
  contains "self" d = true \/ contains "tool_name" d = true ->
  exists e, bind_kwargs (JDict d) = Raise e /\ exn_class e = TypeError.
Proof.
  intros Hclash. simpl. destruct (first_clash d) as [k|] eqn:Hk.
  - by eexists.
  - apply first_clash_none in Hk as [Hs Ht]. destruct Hclash; congruence.
Qed.

Lemma process_call_steps request p r :
  well_formed_call request p ->
  _process_message request r
  = try_except
      (let* kw := lift (bind_kwargs (param_arguments p)) in
       let* value := execute_tool_named (param_name p) kw in
       ret (result_response (req_id request) (Value value)))
      (answer_exception (req_id request)) r.
Proof.
  intros (Hm & Hp & Hne & Hname). unfold _process_message, try_except.
  rewrite Hm, Hp. simpl. destruct p as [|kv p]; [done|]. by rewrite Hname.
Qed.

Lemma http_call_steps request p r :
  well_formed_call request p ->
  http_execute request r
  = try_except
      (let* kw := lift (bind_kwargs (param_arguments p)) in
       let* value := execute_tool_named (param_name p) kw in
       ret (result_response (req_id request) (Value value)))
      (answer_exception (req_id request)) r.
Proof.
  intros (Hm & Hp & Hne & Hname). unfold http_execute, try_except.
  rewrite Hm, Hp. simpl. destruct p as [|kv p]; [done|]. by rewrite Hname.
Qed.

Lemma get_cache_key_json tool (d : dict json) :
  returns (get_cache_key tool (kwargs_of d)).
Proof.
  unfold get_cache_key.
  rewrite bind_result_returns, dumps_returns_iff, encodable_cache_data.
  rewrite forallb_Forall, sorted_items_perm, <- forallb_Forall.
  apply kwargs_of_encodable.
Qed.

Lemma has_kind_is_tool_error tool_name e k :
  has_kind tool_name e k -> is_tool_error (exn_class e) = true.
Proof. by intros []. Qed.

(** X14: both entry points answer every request with a response that
    carries the id of the request; no exception of the registry, of a
    handler or of the call itself gets past them. *)
Theorem X14_server_always_answers (request : MCPRequest) (r : ToolRegistry) :
  (exists resp r',
     _process_message request r = (Return resp, r') /\
     resp_id resp = req_id request) /\
  (exists resp r',
     http_execute request r = (Return resp, r') /\
     resp_id resp = req_id request).
Proof.
  assert (forall body : M MCPResponse,
            (forall resp r', body r = (Return resp, r') ->
                             resp_id resp = req_id request) ->
            exists resp r',
              try_except body (answer_exception (req_id request)) r
              = (Return resp, r') /\ resp_id resp = req_id request) as Htry.
  { intros body Hbody. unfold try_except.
    destruct (body r) as [[resp|e] r'] eqn:Hb.
    - eexists _, _. split; [done|]. by eapply Hbody.
    - rewrite answer_exception_returns. by eexists _, _. }
  assert (forall tool_name tool_params resp r',
            (let* kw := lift (bind_kwargs tool_params) in
             let* value := execute_tool_named tool_name kw in
             ret (result_response (req_id request) (Value value))) r
            = (Return resp, r') -> resp_id resp = req_id request) as Hcall.
  { intros tool_name tool_params resp r'. rewrite call_steps.
    destruct (bind_kwargs tool_params) as [kw|e]; [|done].
    destruct (execute_tool_named tool_name kw r) as [[v|e] r1]; [|done].
    by intros [= <- _]. }
  split; apply Htry; intros resp r'.
  - destruct (String.eqb (method request) "tools/list").
    { unfold bind, read, ret. by intros [= <- _]. }
    destruct (String.eqb (method request) "tools/call").
    2: { unfold ret. by intros [= <- _]. }
    destruct (params request) as [[|kv p]|];
      try (unfold ret; by intros [= <- _]).
    destruct (negb (json_true (param_name (kv :: p)))).
    + unfold ret. by intros [= <- _].
    + apply Hcall.
  - destruct (negb (String.eqb (method request) "tools/call")); [done|].
    destruct (params request) as [[|kv p]|]; try done.
    destruct (negb (json_true (param_name (kv :: p)))); [done|].
    apply Hcall.
Qed.

(** X15: a call that names the tool by a string and passes a dictionary of
    arguments, none of them called [self] or [tool_name], is answered with
    what [execute_tool] does: its value as the result or, when it raises,
    the error -32603 with the text of the exception, which is of one of the
    four kinds; the registry is left as [execute_tool] leaves it. *)
Theorem X15_call_relays_execute_tool
  (request : MCPRequest) (p : dict json) (s : string) (d : dict json)
  (r : ToolRegistry) :
  well_formed_call request p ->
  param_name p = JStr s ->
  param_arguments p = JDict d ->
  contains "self" d = false ->
  contains "tool_name" d = false ->
  exists resp,
    _process_message request r
    = (Return resp, snd (execute_tool s (kwargs_of d) r)) /\
    match fst (execute_tool s (kwargs_of d) r) with
    | Return value => resp = result_response (req_id request) (Value value)
    | Raise e =>
        resp = error_response (req_id request) (-32603) (exn_str e) /\
        exists k, has_kind s e k
    end.
Proof.
  intros Hwf Hname Hargs Hself Htool.
  rewrite (process_call_steps _ _ _ Hwf). unfold try_except.
  rewrite call_steps, Hname, Hargs. simpl.
  rewrite (proj2 (first_clash_none d)) by done.
  destruct (execute_tool s (kwargs_of d) r) as [[value|e] r'] eqn:Hexec;
    simpl; [by eexists|].
  rewrite answer_exception_returns.
  destruct (failure_has_kind_or_cache_key _ _ _ _ _ Hexec)
    as [[k Hk]|(tool & _ & _ & Hkey & _)].
  - rewrite (has_kind_is_tool_error _ _ _ Hk). eauto.
  - destruct (get_cache_key_json tool d) as [key Hret]. congruence.
Qed.

Lemma X15_echo_call_witness :
  let request := {| req_id := "7"; method := "tools/call";
                    params := Some [("name", JStr "echo");
                                    ("arguments", JDict [("x", JInt 1)])] |} in
  well_formed_call request
    [("name", JStr "echo"); ("arguments", JDict [("x", JInt 1)])] /\
  fst (_process_message request (register echo (init [])))
  = Return (result_response "7" (Value (PDict [("x", PInt 1)]))).
Proof.
  intros request.
  assert (well_formed_call request
            [("name", JStr "echo"); ("arguments", JDict [("x", JInt 1)])])
    as Hwf by (by split_and!).
  split; [exact Hwf|].
  destruct (X15_call_relays_execute_tool request _ "echo" [("x", JInt 1)]
              (register echo (init [])) Hwf eq_refl eq_refl eq_refl eq_refl)
    as (resp & Hresp & Hvalue).
  rewrite Hresp. simpl.
  replace (fst (execute_tool "echo" (kwargs_of [("x", JInt 1)])
                  (register echo (init []))))
    with (Return (A:=pyval) (PDict [("x", PInt 1)])) in Hvalue
    by (vm_compute; reflexivity).
  by rewrite Hvalue.
Defined.

(** X16: a call whose arguments hold a key [self] or [tool_name] never
    reaches the registry: the call cannot bind them, both entry points
    answer "Internal server error", and nothing changes, no handler is
    called. *)
Theorem X16_reserved_argument_names
  (request : MCPRequest) (p : dict json) (d : dict json) (r : ToolRegistry) :
  well_formed_call request p ->
  param_arguments p = JDict d ->
  contains "self" d = true \/ contains "tool_name" d = true ->
  _process_message request r
  = (Return (error_response (req_id request) (-32603) "Internal server error"),
     r) /\
  http_execute request r
  = (Return (error_response (req_id request) (-32603) "Internal server error"),
     r).
Proof.
  intros Hwf Hargs Hclash.
  destruct (bind_kwargs_clash d Hclash) as (e & He & Hclass).
  rewrite (process_call_steps _ _ _ Hwf), (http_call_steps _ _ _ Hwf).
  unfold try_except. rewrite call_steps, Hargs, He.
  rewrite answer_exception_returns. by rewrite Hclass.
Qed.

Lemma X16_tool_name_argument_witness :
  let request := {| req_id := "7"; method := "tools/call";
                    params := Some [("name", JStr "echo");
                                    ("arguments",
                                     JDict [("tool_name", JStr "x")])] |} in
  well_formed_call request
    [("name", JStr "echo"); ("arguments", JDict [("tool_name", JStr "x")])] /\
  _process_message request (register echo (init []))
  = (Return (error_response "7" (-32603) "Internal server error"),
     register echo (init [])).
Proof.
  intros request.
  assert (well_formed_call request
            [("name", JStr "echo");
             ("arguments", JDict [("tool_name", JStr "x")])])
    as Hwf by (by split_and!).
  split; [exact Hwf|].
  exact (proj1 (X16_reserved_argument_names request _
                  [("tool_name", JStr "x")] (register echo (init []))
                  Hwf eq_refl (or_intror eq_refl))).
Defined.

(** X17: the handler of [POST /execute] raises its [HTTPException] inside
    its own [try], where [except Exception] catches it: a request with
    another method, without parameters or without a tool name is answered
    "Internal server error" like any other failure, and nothing changes. *)
Theorem X17_http_exception_is_swallowed
  (request : MCPRequest) (r : ToolRegistry) :
  method request <> "tools/call" \/
  params request = None \/ params request = Some [] \/
  (exists p, params request = Some p /\ json_true (param_name p) = false) ->
  http_execute request r
  = (Return (error_response (req_id request) (-32603) "Internal server error"),
     r).
Proof.
  intros Hbad. unfold http_execute, try_except.
  destruct (String.eqb_spec (method request) "tools/call") as [Hm|Hm]; simpl.
  2: { reflexivity. }
  destruct Hbad as [?|[Hp|[Hp|(p & Hp & Hname)]]]; [done|..]; rewrite Hp.
  - reflexivity.
  - reflexivity.
  - destruct p as [|kv p]; [reflexivity|]. rewrite Hname. reflexivity.
Qed.

Lemma X17_wrong_method_witness :
  let request := {| req_id := "1"; method := "tools/list"; params := None |} in
  method request <> "tools/call" /\
  http_execute request (register echo (init []))
  = (Return (error_response "1" (-32603) "Internal server error"),
     register echo (init [])).
Proof.
  intros request.
  assert (method request <> "tools/call") as Hm by discriminate.
  split; [exact Hm|].
  exact (X17_http_exception_is_swallowed request _ (or_introl Hm)).
Defined.

(** X18: for a request that names a tool, [POST /execute] and the
    [tools/call] of the socket give the same response and leave the same
    registry. *)
Theorem X18_entry_points_agree_on_calls
  (request : MCPRequest) (p : dict json) (r : ToolRegistry) :
  well_formed_call request p ->
  http_execute request r = _process_message request r.
Proof.
  intros Hwf.
  by rewrite (process_call_steps _ _ _ Hwf), (http_call_steps _ _ _ Hwf).
Qed.

Lemma X18_agreement_witness :
  let request := {| req_id := "7"; method := "tools/call";
                    params := Some [("name", JStr "ghost")] |} in
  well_formed_call request [("name", JStr "ghost")] /\
  http_execute request (register echo (init []))
  = _process_message request (register echo (init [])) /\
  fst (http_execute request (register echo (init [])))
  = Return (error_response "7" (-32603) "Tool 'ghost' not found").
Proof.
  intros request.
  assert (well_formed_call request [("name", JStr "ghost")]) as Hwf
    by (by split_and!).
  split; [exact Hwf|]. split; [|vm_compute; reflexivity].
  exact (X18_entry_points_agree_on_calls request _ _ Hwf).
Defined.

(** ** The list of tools *)

Lemma tool_entries_names names r :
  (forall n, n ∈ names ->
     exists tool, get_tool n r = Some tool /\ name (metadata tool) = n) ->
  List.map entry_name (tool_entries names r) = names.
Proof.
  induction names as [|n names IH]; intros Hnames; simpl; [done|].
  destruct (Hnames n) as (tool & Hget & Hname); [left|].
  unfold get_tool_metadata. rewrite Hget. simpl. rewrite Hname. f_equal.
  apply IH. intros m Hm. apply Hnames. by right.
Qed.

(** X19: in a registry whose tools are stored under their own names, as
    [register] stores them, the answer to ["tools/list"] has one entry for
    every registered tool, in the order of [list_tools] and under the same
    names, and asking for it changes nothing. *)
Theorem X19_tools_list_names_every_tool
  (request : MCPRequest) (r : ToolRegistry) :
  consistent r ->
  method request = "tools/list" ->
  exists entries,
    _process_message request r
    = (Return (result_response (req_id request) (Tools entries)), r) /\
    List.map entry_name entries = list_tools r.
Proof.
  intros [_ Hnamed] Hm. eexists. split.
  - unfold _process_message, try_except, bind, read, ret. by rewrite Hm.
  - apply tool_entries_names. intros n Hn.
    apply contains_keys in Hn. unfold contains in Hn. unfold get_tool.
    destruct (get n (_tools r)) as [tool|] eqn:Hget; [|done].
    exists tool. split; [done|]. by apply Hnamed.
Qed.

Lemma X19_tools_list_witness :
  let request := {| req_id := "1"; method := "tools/list"; params := None |} in
  let r := register echo (register counter (init [])) in
  consistent r /\
  exists entries,
    fst (_process_message request r)
    = Return (result_response "1" (Tools entries)) /\
    List.map entry_name entries = ["counter"; "echo"].
Proof.
  intros request r.
  assert (consistent r) as Hr
    by (do 2 apply consistent_register; apply consistent_init).
  split; [exact Hr|].
  destruct (X19_tools_list_names_every_tool request r Hr eq_refl)
    as (entries & Hresp & Hnames).
  exists entries. split; [by rewrite Hresp | exact Hnames].
Defined.

(** ** A cached value never expires *)

(** The registry after a series of invocations. *)
Lemma tools_after_calls (calls : list invocation) r :
  _tools (foldl (fun r c => snd (execute_tool (fst c) (snd c) r)) r calls)
  = _tools r.
Proof.
  revert r. induction calls as [|c calls IH]; intros r; simpl; [done|].
  by rewrite IH, tools_execute_tool.
Qed.

Lemma handlers_keep_arguments_tools r r' :
  _tools r' = _tools r ->
  handlers_keep_arguments r -> handlers_keep_arguments r'.
Proof.
  intros Htools Hr tool_name tool kw h Hreg. apply (Hr tool_name).
  unfold get_tool in *. by rewrite <- Htools.
Qed.

Lemma handlers_keep_arguments_init h : handlers_keep_arguments (init h).
Proof. by intros tool_name tool kw h'. Qed.

Lemma handlers_keep_arguments_register tool r :
  (forall kw h, arguments (execute tool kw h) = kw) ->
  handlers_keep_arguments r -> handlers_keep_arguments (register tool r).
Proof.
  intros Htool Hr tool_name t kw h. unfold get_tool. rewrite tools_register.
  destruct (decide (name (metadata tool) = tool_name)) as [<-|Hne].
  - rewrite get_set_eq. intros [= <-]. apply Htool.
  - rewrite get_set_ne by done. apply Hr.
Qed.

(** The three tools a server starts with read their arguments only. *)
Lemma handlers_keep_arguments_default now search files r :
  handlers_keep_arguments r ->
  handlers_keep_arguments (_register_default_tools now search files r).
Proof.
  intros Hr. unfold _register_default_tools.
  by do 3 (apply handlers_keep_arguments_register; [done|]).
Qed.

Lemma cache_after_calls (calls : list invocation) r :
  handlers_keep_arguments r ->
  _cache r
  ⊆ _cache (foldl (fun r c => snd (execute_tool (fst c) (snd c) r)) r calls).
Proof.
  revert r. induction calls as [|c calls IH]; intros r Hr; simpl; [done|].
  etrans; [|apply IH].
  - apply cache_execute_tool. intros tool Hreg.
    by rewrite (Hr _ _ _ _ Hreg).
  - eapply handlers_keep_arguments_tools; [apply tools_execute_tool | done].
Qed.

(** X20: in a registry whose handlers leave their arguments as they got
    them, once an invocation of a cached tool has returned a value, that
    value is the answer to the same call after any number of further
    invocations, of this tool or of others, whether they return or raise:
    the handler is not asked again, whatever time has passed and whatever
    the handler would return now. *)
Theorem X20_cached_value_never_expires
  (tool_name : string) (tool : BaseTool) (kw : kwargs)
  (r r1 : ToolRegistry) (v : pyval) (calls : list invocation) :
  handlers_keep_arguments r ->
  get_tool tool_name r = Some tool ->
  cache_enabled (metadata tool) = true ->
  execute_tool tool_name kw r = (Return v, r1) ->
  let r2 :=
    foldl (fun r c => snd (execute_tool (fst c) (snd c) r)) r1 calls in
  fst (execute_tool tool_name kw r2) = Return v /\
  history (snd (execute_tool tool_name kw r2)) = history r2.
Proof.
  intros Hr Hreg Hc Hexec r2.
  assert (_tools r1 = _tools r) as Htools.
  { replace r1 with (snd (execute_tool tool_name kw r)) by (by rewrite Hexec).
    apply tools_execute_tool. }
  assert (get_cache_key tool (arguments (execute tool kw (history r)))
          = get_cache_key tool kw) as Hkept
    by (by rewrite (Hr _ _ _ _ Hreg)).
  destruct (execute_tool_success_kept _ _ _ _ _ _ Hreg Hc Hexec Hkept)
    as (Hv & k & Hk & Hcached).
  assert (get_tool tool_name r2 = Some tool) as Hreg2.
  { unfold get_tool, r2. by rewrite tools_after_calls, Htools. }
  assert (_cache r2 !! k = Some v) as Hcached2.
  { eapply lookup_weaken; [exact Hcached|]. apply cache_after_calls.
    by apply (handlers_keep_arguments_tools r). }
  assert (cache_lookup tool kw r2 = (Return (Some v), r2)) as Hl.
  { apply cache_lookup_returns. right. eauto. }
  by rewrite (execute_tool_hit _ _ _ _ Hreg2 v Hv Hl).
Qed.

Lemma X20_current_time_witness :
  let r := _register_default_tools ticking ticking ticking (init []) in
  let r1 := snd (execute_tool "get_current_time" [] r) in
  let calls := [("search_web", [("query", PStr "dice")]);
                ("file_operations", []); ("ghost", [])] in
  let r2 :=
    foldl (fun r c => snd (execute_tool (fst c) (snd c) r)) r1 calls in
  handlers_keep_arguments r /\
  get_tool "get_current_time" r = Some (GetCurrentTimeTool ticking) /\
  execute_tool "get_current_time" [] r = (Return (PInt 0), r1) /\
  fst (execute_tool "search_web" [("query", PStr "dice")] r1)
    = Return (PInt 1) /\
  fst (execute_tool "get_current_time" [] r2) = Return (PInt 0).
Proof.
  intros r r1 calls r2.
  assert (handlers_keep_arguments r) as Hr
    by apply handlers_keep_arguments_default, handlers_keep_arguments_init.
  assert (execute_tool "get_current_time" [] r = (Return (PInt 0), r1))
    as Hfirst by (vm_compute; reflexivity).
  split; [exact Hr|].
  split; [vm_compute; reflexivity|]. split; [exact Hfirst|].
  split; [vm_compute; reflexivity|].
  exact (proj1 (X20_cached_value_never_expires "get_current_time"
                  (GetCurrentTimeTool ticking) [] r r1 (PInt 0) calls
                  Hr eq_refl eq_refl Hfirst)).
Defined.

(** ** Time-outs and handlers without an await *)

Lemma await_without_await tool (b : body) t kw h :
  execute tool = without_await b ->
  timeout (metadata tool) = Some t -> (0 < t)%Q ->
  await_handler tool (execute tool kw h) = snd (b kw h).
Proof.
  intros Hexecute Ht Hpos. unfold await_handler.
  rewrite Ht, truthy_nonzero.
  - rewrite wait_for_unstoppable; by rewrite ?Hexecute.
  - intros Hz. rewrite Hz in Hpos. by apply Qlt_irrefl in Hpos.
Qed.

(** X24: a positive time-out places no bound on a handler that has no
    [await], as those of [search_web] and [file_operations] have none:
    awaiting it yields what its body does, however long that takes, and
    when the body returns a value on a cache miss the invocation returns
    that value and, for a cached tool, stores it under the key of the
    call. *)
Theorem X24_time_out_without_await_never_fires
  (tool_name : string) (tool : BaseTool) (b : body) (t : Q)
  (kw : kwargs) (r : ToolRegistry) (value : pyval) :
  get_tool tool_name r = Some tool ->
  execute tool = without_await b ->
  timeout (metadata tool) = Some t -> (0 < t)%Q ->
  validate_input tool kw = Return true ->
  cache_lookup tool kw r = (Return None, r) ->
  snd (b kw (history r)) = Return value ->
  (forall kw' h, await_handler tool (execute tool kw' h) = snd (b kw' h)) /\
  exists r',
    execute_tool tool_name kw r = (Return value, r') /\
    (cache_enabled (metadata tool) = true ->
     exists cache_key, get_cache_key tool kw = Return cache_key /\
                       _cache r' !! cache_key = Some value).
Proof.
  intros Hreg Hexecute Ht Hpos Hv Hmiss Hb.
  assert (forall kw' h,
            await_handler tool (execute tool kw' h) = snd (b kw' h)) as Hawait
    by (intros kw' h; by apply (await_without_await _ _ t)).
  split; [done|].
  assert (await_handler tool (execute tool kw (history r)) = Return value)
    as Ha by (by rewrite Hawait).
  assert (arguments (execute tool kw (history r)) = kw) as Hargs
    by (by rewrite Hexecute).
  destruct (cache_enabled (metadata tool)) eqn:Hc.
  - apply cache_lookup_returns in Hmiss as Hkey.
    destruct Hkey as [[? _]|[_ (k & Hk & _)]]; [congruence|].
    eexists. split.
    + apply (execute_tool_returns_cached _ _ _ _ Hreg Hv Hmiss value k);
        [done|done|by rewrite Hargs].
    + intros _. exists k. split; [done|]. simpl. apply lookup_insert_eq.
  - eexists. split; [|done].
    by apply (execute_tool_returns_uncached _ _ _ _ Hreg Hv Hmiss value).
Qed.

Lemma X24_slow_read_witness :
  let tool := FileOperationsTool slow_read in
  let r := _register_default_tools ticking ticking slow_read (init []) in
  let kw := [("operation", PStr "read"); ("path", PStr "/srv/big")] in
  get_tool "file_operations" r = Some tool /\
  timeout (metadata tool) = Some 10%Q /\
  (0 < 10)%Q /\
  (10 < elapsed (execute tool kw (history r)))%Q /\
  validate_input tool kw = Return true /\
  cache_lookup tool kw r = (Return None, r) /\
  fst (execute_tool "file_operations" kw r)
    = Return (PDict [("success", PBool true); ("data", PStr "contents");
                     ("error", PStr "")]) /\
  fst (cache_lookup tool kw (snd (execute_tool "file_operations" kw r)))
    = Return (Some (PDict [("success", PBool true);
                           ("data", PStr "contents"); ("error", PStr "")])).
Proof.
  intros tool r kw.
  assert (0 < 10)%Q as Hpos by reflexivity.
  assert (cache_lookup tool kw r = (Return None, r)) as Hmiss
    by (vm_compute; reflexivity).
  split; [reflexivity|]. split; [reflexivity|]. split; [exact Hpos|].
  split; [reflexivity|]. split; [reflexivity|]. split; [exact Hmiss|].
  destruct (X24_time_out_without_await_never_fires "file_operations" tool
              slow_read 10%Q kw r _
              eq_refl eq_refl eq_refl Hpos eq_refl Hmiss eq_refl)
    as (_ & r' & Hexec & _).
  split; [by rewrite Hexec | vm_compute; reflexivity].
Defined.

(** ** Arguments json cannot encode once the handler has run *)

(** X25: when the handler of a cached tool returns a value but leaves an
    argument that json cannot encode, the key of the store cannot be
    derived: the [TypeError] is raised inside the [try], the invocation
    raises [ToolError] with its message, the value of the handler is lost
    and the cache is left as it was. *)
Theorem X25_store_fault_loses_the_value
  (tool_name : string) (tool : BaseTool) (kw : kwargs) (r : ToolRegistry)
  (value : pyval) (e : exn) :
  get_tool tool_name r = Some tool ->
  validate_input tool kw = Return true ->
  cache_lookup tool kw r = (Return None, r) ->
  cache_enabled (metadata tool) = true ->
  await_handler tool (execute tool kw (history r)) = Return value ->
  get_cache_key tool (arguments (execute tool kw (history r))) = Raise e ->
  exists r',
    execute_tool tool_name kw r = (Raise (execution_failed e), r') /\
    has_kind tool_name (execution_failed e) ExecutionError /\
    exn_class e = TypeError /\
    _cache r' = _cache r /\
    history r' = (history r ++ [(name (metadata tool), kw)])%list.
Proof.
  intros Hreg Hv Hmiss Hc Ha Hk. eexists. split_and!.
  - by apply (execute_tool_store_failed _ _ _ _ Hreg Hv Hmiss value e).
  - constructor.
  - by eapply get_cache_key_raises_TypeError.
  - done.
  - done.
Qed.

Lemma X25_spoiler_witness :
  let r := register spoiler (init []) in
  let kw := [("items", PList [])] in
  get_tool "spoiler" r = Some spoiler /\
  validate_input spoiler kw = Return true /\
  cache_lookup spoiler kw r = (Return None, r) /\
  await_handler spoiler (execute spoiler kw (history r))
    = Return (PStr "done") /\
  get_cache_key spoiler (arguments (execute spoiler kw (history r)))
    = Raise (Exn TypeError "Object of type object is not JSON serializable") /\
  fst (execute_tool "spoiler" kw r)
    = Raise (Exn ToolError
               "Tool execution failed: Object of type object is not JSON serializable").
Proof.
  intros r kw.
  assert (cache_lookup spoiler kw r = (Return None, r)) as Hmiss
    by (vm_compute; reflexivity).
  assert (get_cache_key spoiler (arguments (execute spoiler kw (history r)))
          = Raise (Exn TypeError
                     "Object of type object is not JSON serializable"))
    as Hk by (vm_compute; reflexivity).
  split; [reflexivity|]. split; [reflexivity|]. split; [exact Hmiss|].
  split; [reflexivity|]. split; [exact Hk|].
  destruct (X25_store_fault_loses_the_value "spoiler" spoiler kw r
              (PStr "done") _ eq_refl eq_refl Hmiss eq_refl eq_refl Hk)
    as (r' & Hexec & _).
  by rewrite Hexec.
Defined.

(** ** MCPConfig.validate *)

Lemma check_nil bad message : Config.check bad message = [] <-> bad = false.
Proof. by destruct bad. Qed.

(** X21: [validate] returns no error exactly when the port is between 1
    and 65535, the rate limits, the execution time, the cache settings and
    the health check interval are at least 1, and the retry attempts and
    the retry delay are not negative. *)
Theorem X21_validate_accepts_iff (c : Config.MCPConfig) :
  Config.validate c = [] <->
  (1 <= Config.port c <= 65535)%Z /\
  (1 <= Config.rate_limit_requests c)%Z /\
  (1 <= Config.rate_limit_window c)%Z /\
  (1 <= Config.max_tool_execution_time c)%Z /\
  (0 <= Config.tool_retry_attempts c)%Z /\
  (0 <= Config.tool_retry_delay c)%Q /\
  (1 <= Config.cache_ttl c)%Z /\
  (1 <= Config.cache_max_size c)%Z /\
  (1 <= Config.health_check_interval c)%Z.
Proof.
  unfold Config.validate. rewrite !app_nil, !check_nil.
  rewrite orb_false_iff, negb_false_iff, Qle_bool_iff, !Z.ltb_ge. tauto.
Qed.

(** ** ConnectionManager *)

Lemma disconnect_absent (c : nat) (l : list nat) :
  c ∉ l -> ConnectionManager.disconnect c l = l.
Proof.
  induction l as [|x l IH]; simpl; [done|].
  intros [Hne Hl]%not_elem_of_cons.
  destruct (Nat.eqb_spec c x); [done|]. by rewrite IH.
Qed.

Lemma failed_sends_fail sends l c :
  c ∈ ConnectionManager.failed_sends sends l -> sends c = false.
Proof.
  induction l as [|x l IH]; simpl; [by intros ?%elem_of_nil|].
  destruct (sends x) eqn:Hx; [done|].
  intros [->|Hc]%elem_of_cons; auto.
Qed.

Lemma disconnect_all_cons_kept sends failed x l :
  sends x = true ->
  (forall c, c ∈ failed -> sends c = false) ->
  ConnectionManager.disconnect_all failed (x :: l)
  = x :: ConnectionManager.disconnect_all failed l.
Proof.
  intros Hx. revert l. induction failed as [|c failed IH];
    intros l Hfailed; simpl; [done|].
  destruct (Nat.eqb_spec c x) as [->|Hne].
  - rewrite Hfailed in Hx by left. done.
  - apply IH. intros c' Hc'. apply Hfailed. by right.
Qed.

(** X22: [broadcast] keeps exactly the connections whose send went
    through, in their order, and drops every connection whose send
    raised, as often as it is in the list. *)
Theorem X22_broadcast_keeps_the_live_connections
  (sends : nat -> bool) (active_connections : list nat) :
  ConnectionManager.broadcast sends active_connections
  = List.filter sends active_connections.
Proof.
  unfold ConnectionManager.broadcast.
  induction active_connections as [|x l IH]; simpl; [done|].
  destruct (sends x) eqn:Hx.
  - rewrite (disconnect_all_cons_kept sends); [by rewrite IH|done|].
    intros c. apply failed_sends_fail.
  - simpl. by rewrite Nat.eqb_refl.
Qed.

(** X23: [disconnect] takes out the first occurrence of the connection and
    keeps the others in their order; it does nothing when the connection
    is not in the list; a connection that connects and disconnects leaves
    the list as it was. *)
Theorem X23_disconnect_removes_one
  (websocket : nat) (before after active_connections : list nat) :
  (websocket ∉ before ->
   ConnectionManager.disconnect websocket (before ++ websocket :: after)
     = (before ++ after)%list) /\
  (websocket ∉ active_connections ->
   ConnectionManager.disconnect websocket active_connections
     = active_connections /\
   ConnectionManager.disconnect websocket
     (ConnectionManager.connect websocket active_connections)
     = active_connections).
Proof.
  split.
  - induction before as [|x l IH]; simpl.
    { intros _. by rewrite Nat.eqb_refl. }
    intros [Hne Hl]%not_elem_of_cons.
    destruct (Nat.eqb_spec websocket x); [done|]. by rewrite IH.
  - intros Hnot. split; [by apply disconnect_absent|].
    unfold ConnectionManager.connect.
    induction active_connections as [|x l IH]; simpl.
    { by rewrite Nat.eqb_refl. }
    apply not_elem_of_cons in Hnot as [Hne Hl].
    destruct (Nat.eqb_spec websocket x); [done|]. by rewrite IH.
Qed.

Lemma X23_disconnect_witness :
  (2%nat ∉ [1%nat; 3%nat]) /\
  ConnectionManager.disconnect 2 [1; 3; 2; 4; 2]%nat = [1; 3; 4; 2]%nat /\
  (2%nat ∉ [1%nat; 3%nat; 4%nat]) /\
  ConnectionManager.disconnect 2
    (ConnectionManager.connect 2 [1; 3; 4]%nat) = [1; 3; 4]%nat.
Proof.
  assert (2%nat ∉ [1%nat; 3%nat]) as Hfirst.
  { apply (bool_decide_unpack _). reflexivity. }
  assert (2%nat ∉ [1%nat; 3%nat; 4%nat]) as Habsent.
  { apply (bool_decide_unpack _). reflexivity. }
  split; [exact Hfirst|]. split.
  { exact (proj1 (X23_disconnect_removes_one 2 [1; 3] [4; 2] [1; 3; 4])%nat
             Hfirst). }
  split; [exact Habsent|].
  exact (proj2 (proj2 (X23_disconnect_removes_one 2 [1; 3] [4; 2]
                         [1; 3; 4]%nat) Habsent)).
Defined.
